(** * compute_sales.py: the sales total of a price catalogue and a sales record

    A shallow embedding of [compute_sales.py] and the properties of its
    loader, aggregator and report.

    Data is modelled as Python holds it after [json.load]: [None], booleans,
    arbitrary-precision integers, binary64 floats (the primitive floats, so
    that sums and products are the machine's), strings, lists and dicts with
    string keys.  A Python [str] is held as its UTF-8 encoding, so the
    accented letters of the program's messages take two bytes each;
    concatenation is unaffected.  Exceptions are explicit: every operation
    that can raise returns a [result]; that includes printing a value, since
    [str] of an int of more than 4300 digits raises. *)

From Stdlib Require Import ZArith List String Ascii Bool Lia.
From Stdlib Require Import DecimalString.
From Stdlib Require Import PrimFloat FloatOps SpecFloat.
Import ListNotations.

Open Scope string_scope.
Open Scope Z_scope.

Set Warnings "-register-all".

(** ** Values *)

Inductive value : Type :=
| VNone
| VBool (b : bool)
| VInt (z : Z)
| VFloat (f : float)
| VStr (s : string)
| VList (l : list value)
| VDict (d : list (string * value)).

(** A dict is the list of its items in insertion order; its keys are
    distinct, and a lookup returns the value stored under the key. *)
Fixpoint assoc {A : Type} (d : list (string * A)) (key : string) : option A :=
  match d with
  | [] => None
  | (k, v) :: rest => if String.eqb k key then Some v else assoc rest key
  end.

(** ** Exceptions *)

(** The exception classes the program can meet.  [OSError] stands for every
    [OSError] other than [FileNotFoundError] (permission denied, is a
    directory, ...) and carries the text [str] gives for it; [IOError] is the
    same class in Python 3.  [JSONDecodeError] and [UnicodeDecodeError] are
    both subclasses of [ValueError], neither of the other; [ValueError]
    stands for a [ValueError] that is neither. *)
Inductive exn : Type :=
| KeyError (key : value)
| TypeError
| AttributeError
| OverflowError
| ValueError
| FileNotFoundError
| OSError (msg : string)
| JSONDecodeError
| UnicodeDecodeError
| StopIteration
| OtherException (name : string)
| SystemExit (code : Z).

Inductive result (A : Type) : Type :=
| Ok (a : A)
| Raise (e : exn).

Arguments Ok {A} a.
Arguments Raise {A} e.

Definition rbind {A B : Type} (m : result A) (k : A -> result B) : result B :=
  match m with
  | Ok a => k a
  | Raise e => Raise e
  end.

Declare Scope result_scope.
Delimit Scope result_scope with result.
Notation "x <- m ;; k" := (rbind m (fun x => k))
  (at level 61, m at next level, right associativity) : result_scope.
Notation "' p <- m ;; k" := (rbind m (fun x => match x with p => k end))
  (at level 61, p pattern, m at next level, right associativity) : result_scope.
Open Scope result_scope.

Definition raises {A : Type} (m : result A) : Prop := exists e, m = Raise e.

(** ** Numbers *)

(** [float(z)] for a Python int: the nearest binary64 value, ties to even;
    [OverflowError] when that value is out of range. *)
Definition Z2float (z : Z) : float :=
  SF2Prim (binary_normalize prec emax z 0 false).

Definition int_to_float (z : Z) : result float :=
  let f := Z2float z in
  if is_infinity f then Raise OverflowError else Ok f.

(** [bool] is a subclass of [int]: [True] is 1 and [False] is 0. *)
Definition as_int (v : value) : option Z :=
  match v with
  | VBool b => Some (if b then 1 else 0)
  | VInt z => Some z
  | _ => None
  end.

(** [isinstance(v, (int, float))] *)
Definition is_int_or_float (v : value) : bool :=
  match v with
  | VBool _ | VInt _ | VFloat _ => true
  | _ => false
  end.

(** [v < 0], for a [v] that passed [isinstance(v, (int, float))]. *)
Definition lt_zero (v : value) : bool :=
  match v with
  | VFloat f => PrimFloat.ltb f 0%float
  | _ => match as_int v with
         | Some z => z <? 0
         | None => false
         end
  end.

Fixpoint list_repeat {A : Type} (l : list A) (n : nat) : list A :=
  match n with
  | O => []
  | S n' => (l ++ list_repeat l n')%list
  end.

Fixpoint string_repeat (s : string) (n : nat) : string :=
  match n with
  | O => EmptyString
  | S n' => s ++ string_repeat s n'
  end.

(** [a * b] where [b] passed [isinstance(b, (int, float))].  A str or a list
    times an int is the sequence repeated (memory is not bounded here);
    times a float it is a [TypeError]. *)
Definition py_mul (a b : value) : result value :=
  match a with
  | VNone | VDict _ => Raise TypeError
  | VFloat x =>
      match b with
      | VFloat y => Ok (VFloat (x * y)%float)
      | _ => match as_int b with
             | Some q => y <- int_to_float q ;; Ok (VFloat (x * y)%float)
             | None => Raise TypeError
             end
      end
  | VStr s =>
      match as_int b with
      | Some q => Ok (VStr (string_repeat s (Z.to_nat q)))
      | None => Raise TypeError
      end
  | VList l =>
      match as_int b with
      | Some q => Ok (VList (list_repeat l (Z.to_nat q)))
      | None => Raise TypeError
      end
  | VBool _ | VInt _ =>
      match as_int a with
      | Some p =>
          match b with
          | VFloat y => x <- int_to_float p ;; Ok (VFloat (x * y)%float)
          | _ => match as_int b with
                 | Some q => Ok (VInt (p * q))
                 | None => Raise TypeError
                 end
          end
      | None => Raise TypeError
      end
  end.

(** The operand of [total_cost += x] as a float: [total_cost] is a float, so
    an int is converted and anything but a number is a [TypeError]. *)
Definition to_double (x : value) : result float :=
  match x with
  | VFloat f => Ok f
  | VBool _ | VInt _ =>
      match as_int x with
      | Some z => int_to_float z
      | None => Raise TypeError
      end
  | _ => Raise TypeError
  end.

(** [total_cost += x] *)
Definition float_iadd (total_cost : float) (x : value) : result float :=
  y <- to_double x ;; Ok (total_cost + y)%float.

(** ** Dict keys *)

(** Python finds a dict key by hash and [==].  Among the values [json.load]
    produces, two keys are equal when both are [None], or the same string, or
    numbers of the same value: [1], [1.0] and [True] are one key, and so are
    [0], [0.0] and [-0.0].  A NaN equals nothing, but a dict first compares
    by identity, and the decoder returns its one NaN object for every NaN of
    a document, so a parsed NaN finds a parsed NaN.  [key] is the class of a
    value under that equality; lists and dicts are unhashable. *)
Inductive key : Type :=
| KNone
| KStr (s : string)
| KInt (z : Z)
| KFloat (f : spec_float).

(** A float as a key: an integral float is the key of that integer. *)
Definition float_key (f : float) : key :=
  match Prim2SF f with
  | S754_zero _ => KInt 0
  | S754_finite s m e =>
      let z := if s then Z.neg m else Z.pos m in
      if 0 <=? e then KInt (z * 2 ^ e)
      else if Z.pos m mod 2 ^ (- e) =? 0 then KInt (z / 2 ^ (- e))
      else KFloat (S754_finite s m e)
  | sf => KFloat sf
  end.

(** [hash(v)], as far as a dict needs it. *)
Definition hash_key (v : value) : result key :=
  match v with
  | VNone => Ok KNone
  | VBool b => Ok (KInt (if b then 1 else 0))
  | VInt z => Ok (KInt z)
  | VFloat f => Ok (float_key f)
  | VStr s => Ok (KStr s)
  | VList _ | VDict _ => Raise TypeError
  end.

Definition spec_float_eqb (a b : spec_float) : bool :=
  match a, b with
  | S754_zero s, S754_zero t => Bool.eqb s t
  | S754_infinity s, S754_infinity t => Bool.eqb s t
  | S754_nan, S754_nan => true
  | S754_finite s m e, S754_finite t n g =>
      Bool.eqb s t && Pos.eqb m n && Z.eqb e g
  | _, _ => false
  end.

Definition key_eqb (a b : key) : bool :=
  match a, b with
  | KNone, KNone => true
  | KStr s, KStr t => String.eqb s t
  | KInt x, KInt y => Z.eqb x y
  | KFloat f, KFloat g => spec_float_eqb f g
  | _, _ => false
  end.

(** A dict with hashable keys, as the list of its items in insertion
    order. *)
Definition pydict : Type := list (key * value).

Fixpoint dict_lookup (d : pydict) (k : key) : option value :=
  match d with
  | [] => None
  | (k', v) :: rest => if key_eqb k' k then Some v else dict_lookup rest k
  end.

(** [d[k] = v] on hashed keys: an existing key keeps its place and takes the
    new value, a new key goes last. *)
Fixpoint dict_store (d : pydict) (k : key) (v : value) : pydict :=
  match d with
  | [] => [(k, v)]
  | (k', v') :: rest =>
      if key_eqb k' k then (k', v) :: rest
      else (k', v') :: dict_store rest k v
  end.

(** [d[k] = v] *)
Definition dict_setitem (d : pydict) (k v : value) : result pydict :=
  h <- hash_key k ;; Ok (dict_store d h v).

(** [k in d] *)
Definition dict_contains (d : pydict) (k : value) : result bool :=
  h <- hash_key k ;;
  Ok (match dict_lookup d h with Some _ => true | None => false end).

(** [d[k]] *)
Definition dict_getitem (d : pydict) (k : value) : result value :=
  h <- hash_key k ;;
  match dict_lookup d h with
  | Some v => Ok v
  | None => Raise (KeyError k)
  end.

(** [item[name]] for a string [name]: a dict without the key raises
    [KeyError]; a list, a str, a number or [None] raises [TypeError]. *)
Definition subscript (item : value) (name : string) : result value :=
  match item with
  | VDict d =>
      match assoc d name with
      | Some v => Ok v
      | None => Raise (KeyError (VStr name))
      end
  | _ => Raise TypeError
  end.

(** [sale.get(name)]: [None] for a missing key; only a dict has [get]. *)
Definition dict_get (sale : value) (name : string) : result value :=
  match sale with
  | VDict d =>
      match assoc d name with
      | Some v => Ok v
      | None => Ok VNone
      end
  | _ => Raise AttributeError
  end.

Definition is_none (v : value) : bool :=
  match v with
  | VNone => true
  | _ => false
  end.

(** ** Text *)

(** The decimal text of an int. *)
Definition decimal (z : Z) : string := NilZero.string_of_int (Z.to_int z).

(** [str] and [repr] of an int of more than [sys.get_int_max_str_digits()]
    digits raise [ValueError]; the limit is 4300 unless the interpreter
    (CPython from 3.11 on) is set up otherwise. *)
Definition int_max_str_digits : Z := 4300.

Definition int_str_limit : Z := Eval vm_compute in 10 ^ int_max_str_digits.

(** The int has at most [int_max_str_digits] digits, the sign apart. *)
Definition int_str_fits (z : Z) : bool := Z.abs z <? int_str_limit.

Arguments int_str_fits : simpl never.

(** [repr(v)] raises: [v] is an int of too many digits, or a list or a dict
    that holds one.  The other values always have a [repr]. *)
Fixpoint repr_raises (v : value) : bool :=
  match v with
  | VInt z => negb (int_str_fits z)
  | VList l => existsb repr_raises l
  | VDict d =>
      (fix items (d : list (string * value)) : bool :=
         match d with
         | [] => false
         | (_, x) :: rest => repr_raises x || items rest
         end) d
  | _ => false
  end.

Fixpoint zeros (n : nat) : string :=
  match n with
  | O => EmptyString
  | S n' => String "0" (zeros n')
  end.

(** [n / d] rounded to the nearest integer, ties to even ([0 <= n], [0 < d]). *)
Definition div_half_even (n d : Z) : Z :=
  let q := n / d in
  let r := n mod d in
  if 2 * r <? d then q
  else if d <? 2 * r then q + 1
  else if Z.even q then q else q + 1.

(** The digits of [n / 10^p] with [p] decimals. *)
Definition fixed_digits (p : nat) (n : Z) : string :=
  let scale := 10 ^ Z.of_nat p in
  let frac := decimal (n mod scale) in
  decimal (n / scale) ++
  match p with
  | O => EmptyString
  | _ => "." ++ zeros (p - String.length frac) ++ frac
  end.

(** [format(x, ".pf")]: the exact value of the float, rounded to [p]
    decimals, ties to even; the sign is kept when the digits are all zero. *)
Definition format_fixed (p : nat) (x : float) : string :=
  match Prim2SF x with
  | S754_nan => "nan"
  | S754_infinity s => if s then "-inf" else "inf"
  | S754_zero s => (if s then "-" else "") ++ fixed_digits p 0
  | S754_finite s m e =>
      let scaled := Z.pos m * 10 ^ Z.of_nat p in
      let n := if 0 <=? e then scaled * 2 ^ e
               else div_half_even scaled (2 ^ (- e)) in
      (if s then "-" else "") ++ fixed_digits p n
  end.

Section Aggregator.

(** [repr] of a float, a list or a dict is Python's own: the shortest
    decimal that reads back as the float, the quoting and escaping of the
    strings inside a container.  It is not code of this program and is taken
    as given: [py_repr v] is the text [repr(v)] returns when it returns. *)
Variable py_repr : value -> string.

(** The text of [str(v)] when it returns: a str is itself; for every other
    value [str] is [repr]. *)
Definition str_text (v : value) : string :=
  match v with
  | VStr s => s
  | VNone => "None"
  | VBool true => "True"
  | VBool false => "False"
  | VInt z => decimal z
  | _ => py_repr v
  end.

(** [f"{v}"]: [str(v)], which raises when [repr(v)] does. *)
Definition py_str (v : value) : result string :=
  if repr_raises v then Raise ValueError else Ok (str_text v).

(** ** compute_total_sales *)

(** [{item["title"]: item["price"] for item in price_catalogue}]: for each
    item the key is evaluated, then the value, then the pair is stored. *)
Fixpoint build_price_dict (price_dict : pydict) (price_catalogue : list value)
  : result pydict :=
  match price_catalogue with
  | [] => Ok price_dict
  | item :: rest =>
      title <- subscript item "title" ;;
      price <- subscript item "price" ;;
      price_dict' <- dict_setitem price_dict title price ;;
      build_price_dict price_dict' rest
  end.

(** [f"Registro inválido en ventas: {sale}"] *)
Definition invalid_record_message (sale : value) : result string :=
  text <- py_str sale ;;
  Ok ("Registro inválido en ventas: " ++ text)%string.

(** [f"{product} no encontrado en el catálogo"] *)
Definition not_found_message (product : value) : result string :=
  text <- py_str product ;;
  Ok (text ++ " no encontrado en el catálogo")%string.

(** [f"Cantidad {quantity} inválido para {product}"] *)
Definition invalid_quantity_message (quantity product : value)
  : result string :=
  number <- py_str quantity ;;
  name <- py_str product ;;
  Ok ("Cantidad " ++ number ++ " inválido para " ++ name)%string.

(** The body of [for sale in sales_record], on the running
    [(total_cost, errors)]. *)
Definition sale_step (price_dict : pydict) (state : float * list string)
  (sale : value) : result (float * list string) :=
  let '(total_cost, errors) := state in
  product <- dict_get sale "Product" ;;
  quantity <- dict_get sale "Quantity" ;;
  if is_none product || is_none quantity then
    message <- invalid_record_message sale ;;
    Ok (total_cost, (errors ++ [message])%list)
  else
    found <- dict_contains price_dict product ;;
    if negb found then
      message <- not_found_message product ;;
      Ok (total_cost, (errors ++ [message])%list)
    else if negb (is_int_or_float quantity) || lt_zero quantity then
      message <- invalid_quantity_message quantity product ;;
      Ok (total_cost, (errors ++ [message])%list)
    else
      price <- dict_getitem price_dict product ;;
      amount <- py_mul price quantity ;;
      total_cost' <- float_iadd total_cost amount ;;
      Ok (total_cost', errors).

Fixpoint sales_loop (price_dict : pydict) (state : float * list string)
  (sales_record : list value) : result (float * list string) :=
  match sales_record with
  | [] => Ok state
  | sale :: rest =>
      state' <- sale_step price_dict state sale ;;
      sales_loop price_dict state' rest
  end.

Definition compute_total_sales (price_catalogue sales_record : list value)
  : result (float * list string) :=
  price_dict <- build_price_dict [] price_catalogue ;;
  sales_loop price_dict (0%float, []) sales_record.

(** *** The aggregation contract

    The three checks on a sale record, stated on the record alone, to
    compare the loop with. *)

(** [name in item], for a catalogue entry. *)
Definition has_key (item : value) (name : string) : bool :=
  match item with
  | VDict d =>
      match assoc d name with
      | Some _ => true
      | None => false
      end
  | _ => false
  end.

(** A field of a record: [None] when the key is absent. *)
Definition field (sale : value) (name : string) : value :=
  match sale with
  | VDict d =>
      match assoc d name with
      | Some v => v
      | None => VNone
      end
  | _ => VNone
  end.

Definition is_key (price_dict : pydict) (product : value) : bool :=
  match hash_key product with
  | Ok h =>
      match dict_lookup price_dict h with
      | Some _ => true
      | None => false
      end
  | Raise _ => false
  end.

(** A record is invalid when its Product or Quantity is absent or null, or
    its Product is not a key of the price mapping, or its Quantity is not a
    number or is negative. *)
Definition invalid_record (price_dict : pydict) (sale : value) : bool :=
  is_none (field sale "Product") || is_none (field sale "Quantity")
  || negb (is_key price_dict (field sale "Product"))
  || negb (is_int_or_float (field sale "Quantity"))
  || lt_zero (field sale "Quantity").

Definition valid_record (price_dict : pydict) (sale : value) : bool :=
  negb (invalid_record price_dict sale).

(** The error of an invalid record, when its text can be built. *)
Definition record_error (price_dict : pydict) (sale : value) : string :=
  if is_none (field sale "Product") || is_none (field sale "Quantity") then
    "Registro inválido en ventas: " ++ str_text sale
  else if negb (is_key price_dict (field sale "Product")) then
    str_text (field sale "Product") ++ " no encontrado en el catálogo"
  else
    "Cantidad " ++ str_text (field sale "Quantity") ++ " inválido para "
    ++ str_text (field sale "Product").

(** Price times quantity, as the float added to the total. *)
Definition amount (price quantity : value) : result float :=
  x <- py_mul price quantity ;; to_double x.

Definition record_amount (price_dict : pydict) (sale : value) : result float :=
  price <- dict_getitem price_dict (field sale "Product") ;;
  amount price (field sale "Quantity").


End Aggregator.

(** ** Input and output *)

(** What the program has written: the text on standard output and the
    contents of [SalesTC1Results.txt], [None] while the file has not been
    opened. *)
Record console : Type := Console {
  stdout : string;
  results_file : option string
}.

Definition console0 : console := Console "" None.

(** A computation that writes to the console and returns or raises; what was
    written before an exception stays written. *)
Definition IO (A : Type) : Type := console -> console * result A.

Definition io_ret {A : Type} (a : A) : IO A := fun c => (c, Ok a).

Definition io_raise {A : Type} (e : exn) : IO A := fun c => (c, Raise e).

Definition io_bind {A B : Type} (m : IO A) (k : A -> IO B) : IO B :=
  fun c =>
    match m c with
    | (c', Ok a) => k a c'
    | (c', Raise e) => (c', Raise e)
    end.

Definition io_lift {A : Type} (r : result A) : IO A := fun c => (c, r).

Declare Scope io_scope.
Delimit Scope io_scope with io.
Notation "x <- m ;; k" := (io_bind m (fun x => k))
  (at level 61, m at next level, right associativity) : io_scope.
Notation "m ;;; k" := (io_bind m (fun _ => k))
  (at level 61, right associativity) : io_scope.

(** The line feed. *)
Definition nl : string := String "010" EmptyString.

(** [print(text)] *)
Definition print (text : string) : IO unit :=
  fun c => (Console (stdout c ++ text ++ nl) (results_file c), Ok tt).

(** [result_file.write(text)] on the open results file. *)
Definition write (text : string) : IO unit :=
  fun c =>
    (Console (stdout c)
       (Some (match results_file c with Some old => old | None => "" end ++ text)),
     Ok tt).

(** [for x in xs: body(x)] *)
Fixpoint io_for {A : Type} (xs : list A) (body : A -> IO unit) : IO unit :=
  match xs with
  | [] => io_ret tt
  | x :: rest => (body x ;;; io_for rest body)%io
  end.

(** What the program finds outside itself. *)
Record world : Type := World {
  (** [sys.argv], the program's name first *)
  argv : list string;
  (** [open(path, 'r', encoding='utf-8')] followed by [json.load]: the
      parsed document or the exception raised *)
  read_json : string -> result value;
  (** [open(path, 'r', encoding='utf-8')] followed by [csv.reader]: the
      exception raised by [open], or the rows the reader yields and the
      exception, if any, that ends the reading *)
  read_csv : string -> result (list (list string) * option exn);
  (** the two readings of [time.time()] *)
  time_start : float;
  time_end : float;
  (** [open("SalesTC1Results.txt", "w", encoding="utf-8")] *)
  open_results : result unit
}.

Section Program.

Variable py_repr : value -> string.

(** [int(text)] for a str: [None] stands for [ValueError]. *)
Variable py_int : string -> option Z.

Variable w : world.

(** *** load_json_file *)

Definition load_json_file (file_path : string) : IO (option (list value)) :=
  match read_json w file_path with
  | Ok (VList data) => io_ret (Some data)
  | Ok _ =>
      (print ("Error: El archivo " ++ file_path ++ " no es un JSON válida.") ;;;
       io_ret None)%io
  | Raise FileNotFoundError =>
      (print ("Error: El archivo " ++ file_path ++ " no se encontró.") ;;;
       io_ret None)%io
  | Raise JSONDecodeError =>
      (print ("Error: El archivo " ++ file_path
              ++ " tiene un formato JSON inválido.") ;;;
       io_ret None)%io
  | Raise (OSError file_error) =>
      (print ("Error inesperado al leer " ++ file_path ++ ": " ++ file_error) ;;;
       io_ret None)%io
  | Raise e => io_raise e
  end.

(** *** load_csv_file *)

(** The record appended for a row [product, quantity]. *)
Definition csv_sale (product : string) (quantity : Z) : value :=
  VDict [("product", VStr product); ("quantity", VInt quantity)].

(** [for row in reader], over the rows the reader yields.  A row is a list
    of str, which can always be printed. *)
Fixpoint csv_rows (file_path : string) (rows : list (list string))
  (sales_record : list value) : IO (list value) :=
  match rows with
  | [] => io_ret sales_record
  | row :: rest =>
      match row with
      | [product; quantity] =>
          match py_int quantity with
          | Some q =>
              csv_rows file_path rest (sales_record ++ [csv_sale product q])%list
          | None =>
              (print ("Error: " ++ quantity ++ " inválido para " ++ product) ;;;
               csv_rows file_path rest sales_record)%io
          end
      | _ =>
          (print ("Error: Fila inválida en " ++ file_path ++ ": "
                  ++ py_repr (VList (map VStr row))) ;;;
           csv_rows file_path rest sales_record)%io
      end
  end.

(** The [except] clauses of [load_csv_file], then [return sales_record]. *)
Definition csv_except (file_path : string) (e : exn) (sales_record : list value)
  : IO (list value) :=
  match e with
  | FileNotFoundError =>
      (print ("Error: El archivo " ++ file_path ++ " no se encontró.") ;;;
       io_ret sales_record)%io
  | OSError file_error =>
      (print ("Error inesperado al leer " ++ file_path ++ ": " ++ file_error) ;;;
       io_ret sales_record)%io
  | _ => io_raise e
  end.

Definition load_csv_file (file_path : string) : IO (list value) :=
  match read_csv w file_path with
  | Raise e => csv_except file_path e []
  | Ok ([], None) => io_raise StopIteration
  | Ok ([], Some e) => csv_except file_path e []
  | Ok (_ :: rows, ending) =>
      (sales_record <- csv_rows file_path rows [] ;;
       match ending with
       | None => io_ret sales_record
       | Some e => csv_except file_path e sales_record
       end)%io
  end.

(** *** main *)

Definition result_message (total_cost execution_time : float) : string :=
  "Total de ventas: $" ++ format_fixed 2 total_cost ++ nl
  ++ "Tiempo de ejecución: " ++ format_fixed 4 execution_time ++ " segundos"
  ++ nl.

(** [open("SalesTC1Results.txt", "w", encoding="utf-8")]: the file is
    emptied when it opens. *)
Definition open_results_file : IO unit :=
  fun c =>
    match open_results w with
    | Ok _ => (Console (stdout c) (Some ""), Ok tt)
    | Raise e => (c, Raise e)
    end.

Definition main : IO unit :=
  (if negb (Nat.eqb (List.length (argv w)) 3) then
     print "Usa: python compute_sales.py precios.json ventas.csv" ;;;
     io_raise (SystemExit 1)
   else
     let price_catalogue_file := nth 1 (argv w) "" in
     let sales_record_file := nth 2 (argv w) "" in
     let start_time := time_start w in
     price_catalogue <- load_json_file price_catalogue_file ;;
     sales_record <- load_json_file sales_record_file ;;
     match price_catalogue, sales_record with
     | None, _ | _, None | _, Some [] =>
         print "Error: No se pudieron cargar los archivos correctamente." ;;;
         io_raise (SystemExit 1)
     | Some price_catalogue, Some sales_record =>
         r <- io_lift (compute_total_sales py_repr price_catalogue sales_record) ;;
         let '(total_cost, errors) := r in
         let execution_time := (time_end w - start_time)%float in
         let message := result_message total_cost execution_time in
         print message ;;;
         match errors with
         | [] => io_ret tt
         | _ =>
             print "Errores encontrados:" ;;;
             io_for errors (fun error => print (" - " ++ error))
         end ;;;
         open_results_file ;;;
         write message ;;;
         match errors with
         | [] => io_ret tt
         | _ =>
             write ("Errores encontrados:" ++ nl) ;;;
             io_for errors (fun error => write (" - " ++ error ++ nl))
         end
     end)%io.

(** The exit status of the process once [main] has run: 0 when it returns,
    the code of [sys.exit], 1 for a traceback. *)
Definition exit_status (r : result unit) : Z :=
  match r with
  | Ok _ => 0
  | Raise (SystemExit code) => code
  | Raise _ => 1
  end.

End Program.


(** The exceptions the [except] clauses of [load_json_file] catch. *)
Definition loader_catches (e : exn) : bool :=
  match e with
  | FileNotFoundError | JSONDecodeError | OSError _ => true
  | _ => false
  end.

(** The exceptions that start in the aggregator. *)
Definition aggregator_exn (e : exn) : bool :=
  match e with
  | KeyError _ | TypeError | AttributeError | OverflowError | ValueError =>
      true
  | _ => false
  end.

(** The lines that follow the two lines of the report: nothing when there
    are no errors, else a heading and one line for each error. *)
Definition error_lines (errors : list string) : string :=
  match errors with
  | [] => ""
  | _ =>
      "Errores encontrados:" ++ nl
      ++ String.concat "" (map (fun error => " - " ++ error ++ nl) errors)
  end.

(** ** The loaders, read off their branches *)

(** The four failures [load_json_file] reports. *)
Inductive load_failure : Type :=
| NotAList
| NotFound
| BadJson
| Unexpected.

(** The failure, if any, that [load_json_file] reports for what reading the
    file gives. *)
Definition failure_of (r : result value) : option load_failure :=
  match r with
  | Ok (VList _) => None
  | Ok _ => Some NotAList
  | Raise FileNotFoundError => Some NotFound
  | Raise JSONDecodeError => Some BadJson
  | Raise (OSError _) => Some Unexpected
  | Raise _ => None
  end.

(** [path] occurs in [line]. *)
Definition names_path (path line : string) : Prop :=
  exists before after, line = before ++ path ++ after.

(** The four messages of [load_json_file] for a path. *)
Definition load_message (path line : string) : Prop :=
  line = "Error: El archivo " ++ path ++ " no es un JSON válida."
  \/ line = "Error: El archivo " ++ path ++ " no se encontró."
  \/ line = "Error: El archivo " ++ path ++ " tiene un formato JSON inválido."
  \/ exists file_error,
       line = "Error inesperado al leer " ++ path ++ ": " ++ file_error.

(** The exceptions the [except] clauses of [load_csv_file] catch. *)
Definition csv_catches (e : exn) : bool :=
  match e with
  | FileNotFoundError | OSError _ => true
  | _ => false
  end.

(** The records a row of the CSV file adds: one for a row of two fields
    whose second is an integer, none for any other row. *)
Definition row_record (py_int : string -> option Z) (row : list string)
  : list value :=
  match row with
  | [product; quantity] =>
      match py_int quantity with
      | Some q => [VDict [("product", VStr product); ("quantity", VInt q)]]
      | None => []
      end
  | _ => []
  end.

(** The records of the rows read, the header apart. *)
Definition csv_records (py_int : string -> option Z)
  (r : result (list (list string) * option exn)) : list value :=
  match r with
  | Ok (_ :: rows, _) => flat_map (row_record py_int) rows
  | _ => []
  end.

(** A sale record that stops the aggregator: it is not a dict, or it has a
    Quantity and a Product that is a list or a dict. *)
Definition unhashable (v : value) : bool :=
  match v with
  | VList _ | VDict _ => true
  | _ => false
  end.

Definition stops_aggregator (sale : value) : bool :=
  match sale with
  | VDict _ =>
      unhashable (field sale "Product") && negb (is_none (field sale "Quantity"))
  | _ => true
  end.

(** A sale record of an object whose Product is a string, or null, or
    absent, and that holds no int of too many digits. *)
Definition plain_sale (sale : value) : Prop :=
  exists d, sale = VDict d
            /\ repr_raises sale = false
            /\ (field sale "Product" = VNone
                \/ exists s, field sale "Product" = VStr s).


(** ** Instances for the examples *)

(** [repr] on the fragment the examples print: [None], booleans, ints,
    strings of printable ASCII without quotes or backslashes, and lists and
    dicts of these.  A float is left as a mark. *)
Fixpoint repr_simple (v : value) : string :=
  match v with
  | VNone => "None"
  | VBool true => "True"
  | VBool false => "False"
  | VInt z => decimal z
  | VFloat _ => "<float>"
  | VStr s => "'" ++ s ++ "'"
  | VList l =>
      "[" ++
      (fix items (l : list value) : string :=
         match l with
         | [] => ""
         | [x] => repr_simple x
         | x :: rest => repr_simple x ++ ", " ++ items rest
         end) l ++ "]"
  | VDict d =>
      "{" ++
      (fix items (d : list (string * value)) : string :=
         match d with
         | [] => ""
         | [(k, x)] => "'" ++ k ++ "': " ++ repr_simple x
         | (k, x) :: rest => "'" ++ k ++ "': " ++ repr_simple x ++ ", " ++ items rest
         end) d ++ "}"
  end.

Fixpoint digits_value (s : string) (acc : Z) : option Z :=
  match s with
  | EmptyString => Some acc
  | String c rest =>
      let n := Z.of_nat (nat_of_ascii c) - 48 in
      if (0 <=? n) && (n <=? 9) then digits_value rest (10 * acc + n) else None
  end.

(** [int] on plain decimal numerals, with or without a minus sign. *)
Definition int_simple (s : string) : option Z :=
  match s with
  | EmptyString => None
  | String "-" EmptyString => None
  | String "-" rest => option_map Z.opp (digits_value rest 0)
  | _ => digits_value s 0
  end.

Definition apple (price : value) : value :=
  VDict [("title", VStr "Apple"); ("price", price)].

Definition sale_of (product : string) (quantity : value) : value :=
  VDict [("Product", VStr product); ("Quantity", quantity)].

(** A run on two readable files: a catalogue and a sales record. *)
Definition world_of (price_catalogue sales_record : value) : world :=
  World ["compute_sales.py"; "precios.json"; "ventas.json"]
    (fun path =>
       if String.eqb path "precios.json" then Ok price_catalogue
       else if String.eqb path "ventas.json" then Ok sales_record
       else Raise FileNotFoundError)
    (fun _ => Raise FileNotFoundError)
    1%float 1.5%float (Ok tt).

(** The catalogue of the examples: apples at 2.0 and pears at 0.5, after an
    older price for apples. *)
Definition fruit_catalogue : list value :=
  [apple (VFloat 1); apple (VFloat 2);
   VDict [("title", VStr "Pear"); ("price", VFloat 0.5)]].

Definition fruit_prices : pydict :=
  [(KStr "Apple", VFloat 2); (KStr "Pear", VFloat 0.5)].

(** A catalogue of one entry: apples at 2.0. *)
Definition apple_catalogue : list value := [apple (VFloat 2)].

Definition apple_prices : pydict := [(KStr "Apple", VFloat 2)].

(** A world whose files are not UTF-8 text. *)
Definition undecodable_world : world :=
  World ["compute_sales.py"; "precios.json"; "ventas.json"]
    (fun _ => Raise UnicodeDecodeError)
    (fun _ => Raise UnicodeDecodeError)
    1%float 1.5%float (Ok tt).

(** A world with a sales file in CSV: a header and two rows. *)
Definition csv_world : world :=
  World ["compute_sales.py"; "precios.json"; "ventas.csv"]
    (fun _ => Raise JSONDecodeError)
    (fun path =>
       if String.eqb path "ventas.csv" then
         Ok ([["product"; "quantity"]; ["Apple"; "3"]; ["Pear"; "-2"]], None)
       else Raise FileNotFoundError)
    1%float 1.5%float (Ok tt).

(** A world where neither file exists. *)
Definition missing_world : world :=
  World ["compute_sales.py"; "precios.json"; "ventas.json"]
    (fun _ => Raise FileNotFoundError)
    (fun _ => Raise FileNotFoundError)
    1%float 1.5%float (Ok tt).

(** A world whose CSV file stops being readable after three rows. *)
Definition failing_csv_world : world :=
  World ["compute_sales.py"; "precios.json"; "ventas.csv"]
    (fun _ => Raise JSONDecodeError)
    (fun _ =>
       Ok ([["product"; "quantity"]; ["Apple"; "3"]; ["Pear"; "x"];
            ["Fig"; "1"; "2"]; ["Plum"; "7"]],
           Some (OSError "[Errno 5] Input/output error")))
    1%float 1.5%float (Ok tt).

(** A world whose CSV file is empty. *)
Definition empty_csv_world : world :=
  World ["compute_sales.py"; "precios.json"; "ventas.csv"]
    (fun _ => Raise JSONDecodeError)
    (fun _ => Ok ([], None))
    1%float 1.5%float (Ok tt).

(** * Properties *)

(** ** The result monad *)

Lemma rbind_ok {A B : Type} (m : result A) (k : A -> result B) (b : B) :
  rbind m k = Ok b -> exists a, m = Ok a /\ k a = Ok b.
Proof.
  destruct m as [a | e]; simpl; intros H.
  - exists a. split; [reflexivity | exact H].
  - discriminate H.
Qed.

Lemma raises_bind {A B : Type} (m : result A) (k : A -> result B) :
  raises m -> raises (rbind m k).
Proof. intros [e ->]. exists e. reflexivity. Qed.

(** ** Keys and dicts *)

Lemma spec_float_eqb_eq (a b : spec_float) :
  spec_float_eqb a b = true <-> a = b.
Proof.
  split.
  - destruct a as [s | s | | s m e], b as [t | t | | t n g];
      simpl; try discriminate; intros H.
    + apply Bool.eqb_prop in H. now subst.
    + apply Bool.eqb_prop in H. now subst.
    + reflexivity.
    + apply andb_prop in H as [H He]. apply andb_prop in H as [Hs Hm].
      apply Bool.eqb_prop in Hs. apply Pos.eqb_eq in Hm. apply Z.eqb_eq in He.
      now subst.
  - intros <-. destruct a as [s | s | | s m e]; simpl.
    + apply Bool.eqb_reflx.
    + apply Bool.eqb_reflx.
    + reflexivity.
    + now rewrite Bool.eqb_reflx, Pos.eqb_refl, Z.eqb_refl.
Qed.

Lemma key_eqb_eq (a b : key) : key_eqb a b = true <-> a = b.
Proof.
  split.
  - destruct a, b; simpl; try discriminate; intros H.
    + reflexivity.
    + apply String.eqb_eq in H. now subst.
    + apply Z.eqb_eq in H. now subst.
    + apply spec_float_eqb_eq in H. now subst.
  - intros <-. destruct a; simpl.
    + reflexivity.
    + apply String.eqb_refl.
    + apply Z.eqb_refl.
    + now apply spec_float_eqb_eq.
Qed.

Lemma key_eqb_neq (a b : key) : key_eqb a b = false <-> a <> b.
Proof.
  split.
  - intros H Heq. apply key_eqb_eq in Heq. congruence.
  - intros H. destruct (key_eqb a b) eqn:E; [| reflexivity].
    apply key_eqb_eq in E. contradiction.
Qed.

(** Storing under [k] changes what [k] finds and nothing else. *)
Lemma dict_lookup_store (d : pydict) (k k' : key) (v : value) :
  dict_lookup (dict_store d k v) k'
  = if key_eqb k k' then Some v else dict_lookup d k'.
Proof.
  induction d as [| [k0 v0] rest IH]; simpl.
  - reflexivity.
  - destruct (key_eqb k0 k) eqn:E0; simpl.
    + apply key_eqb_eq in E0. subst k0.
      destruct (key_eqb k k'); reflexivity.
    + rewrite IH. destruct (key_eqb k0 k') eqn:E1.
      * apply key_eqb_eq in E1. subst k0.
        apply key_eqb_neq in E0.
        assert (key_eqb k k' = false) as -> by (apply key_eqb_neq; congruence).
        reflexivity.
      * reflexivity.
Qed.

(** ** The price mapping *)

Lemma build_price_dict_app (pd : pydict) (pre post : list value) :
  build_price_dict pd (pre ++ post)
  = (pd' <- build_price_dict pd pre ;; build_price_dict pd' post).
Proof.
  revert pd. induction pre as [| item pre IH]; intros pd; simpl.
  - reflexivity.
  - destruct (subscript item "title") as [title | e]; simpl; [| reflexivity].
    destruct (subscript item "price") as [price | e]; simpl; [| reflexivity].
    destruct (dict_setitem pd title price) as [pd1 | e]; simpl; [| reflexivity].
    apply IH.
Qed.

(** Entries with other titles leave the price of a title as it is. *)
Lemma build_price_dict_other_titles (post : list value) (pd pd' : pydict)
  (h : key) :
  build_price_dict pd post = Ok pd' ->
  Forall (fun later =>
            forall t, subscript later "title" = Ok t -> hash_key t <> Ok h)
         post ->
  dict_lookup pd' h = dict_lookup pd h.
Proof.
  revert pd. induction post as [| item post IH]; intros pd Hbuild Hother.
  - simpl in Hbuild. now inversion Hbuild.
  - simpl in Hbuild. inversion Hother as [| ? ? Hitem Hpost]; subst.
    apply rbind_ok in Hbuild as (title & Htitle & Hbuild).
    apply rbind_ok in Hbuild as (price & Hprice & Hbuild).
    apply rbind_ok in Hbuild as (pd1 & Hset & Hbuild).
    rewrite (IH pd1 Hbuild Hpost).
    unfold dict_setitem in Hset.
    apply rbind_ok in Hset as (h' & Hh' & Hset).
    inversion Hset; subst pd1.
    rewrite dict_lookup_store.
    assert (key_eqb h' h = false) as ->; [| reflexivity].
    apply key_eqb_neq. intros ->. exact (Hitem title Htitle Hh').
Qed.

Lemma build_price_dict_raises (cat : list value) (item : value) (pd : pydict) :
  In item cat ->
  has_key item "title" = false \/ has_key item "price" = false ->
  raises (build_price_dict pd cat).
Proof.
  revert pd. induction cat as [| first rest IH]; intros pd Hin Hlacks.
  - contradiction.
  - simpl. destruct Hin as [-> | Hin].
    + unfold has_key in Hlacks. unfold subscript.
      destruct item as [| | | | | | d]; try (eexists; reflexivity).
      destruct (assoc d "title") as [title |]; simpl;
        [| eexists; reflexivity].
      destruct (assoc d "price") as [price |]; simpl;
        [| eexists; reflexivity].
      destruct Hlacks; discriminate.
    + destruct (subscript first "title") as [title | e]; simpl;
        [| eexists; reflexivity].
      destruct (subscript first "price") as [price | e]; simpl;
        [| eexists; reflexivity].
      destruct (dict_setitem pd title price) as [pd1 | e]; simpl;
        [| eexists; reflexivity].
      now apply IH.
Qed.

(** ** The aggregator *)

Section AggregatorProperties.

Variable py_repr : value -> string.

Lemma dict_getitem_contains (pd : pydict) (k v : value) :
  dict_getitem pd k = Ok v -> dict_contains pd k = Ok true.
Proof.
  unfold dict_getitem, dict_contains.
  destruct (hash_key k) as [h | e]; simpl; [| discriminate].
  destruct (dict_lookup pd h); [reflexivity | discriminate].
Qed.

Lemma dict_get_dict (d : list (string * value)) (name : string) :
  dict_get (VDict d) name = Ok (field (VDict d) name).
Proof. unfold dict_get, field. destruct (assoc d name); reflexivity. Qed.

(** The loop over a concatenation is the loop over the first part followed,
    from the state it reaches, by the loop over the second. *)
Lemma sales_loop_app (pd : pydict) (before after : list value)
  (state : float * list string) :
  sales_loop py_repr pd state (before ++ after)
  = (state' <- sales_loop py_repr pd state before ;;
     sales_loop py_repr pd state' after).
Proof.
  revert state. induction before as [| sale before IH]; intros state; simpl.
  - reflexivity.
  - destruct (sale_step py_repr pd state sale) as [state' | e]; simpl.
    + apply IH.
    + reflexivity.
Qed.

(** A record in the middle of the input is met in the state the records
    before it have left. *)
Lemma compute_total_sales_at (cat : list value) (pd : pydict)
  (before after : list value) (sale : value) :
  build_price_dict [] cat = Ok pd ->
  compute_total_sales py_repr cat (before ++ sale :: after)
  = (state <- compute_total_sales py_repr cat before ;;
     state' <- sale_step py_repr pd state sale ;;
     sales_loop py_repr pd state' after).
Proof.
  intros Hpd. unfold compute_total_sales. rewrite Hpd. simpl.
  now rewrite sales_loop_app.
Qed.

(** Two floats always have a product; an int takes part when it converts. *)
Lemma amount_of_floats (p q : float) :
  amount (VFloat p) (VFloat q) = Ok (p * q)%float.
Proof. reflexivity. Qed.

Lemma amount_of_float_int (p : float) (q : Z) :
  is_infinity (Z2float q) = false ->
  amount (VFloat p) (VInt q) = Ok (p * Z2float q)%float.
Proof.
  intros H. unfold amount. cbn [py_mul as_int]. unfold int_to_float.
  now rewrite H.
Qed.




(** C3, as amended: a record with Product and Quantity whose Product can be
    hashed and is not a key of the price mapping, and can be printed (it
    holds no int of more than 4300 digits), adds the error
    "<product> no encontrado en el catálogo" and leaves the total as it
    was, wherever the record stands in the input. *)
Theorem unknown_product_error (cat : list value) (pd : pydict)
  (before after : list value) (sale product quantity : value) :
  build_price_dict [] cat = Ok pd ->
  dict_get sale "Product" = Ok product ->
  dict_get sale "Quantity" = Ok quantity ->
  is_none product = false ->
  is_none quantity = false ->
  dict_contains pd product = Ok false ->
  repr_raises product = false ->
  compute_total_sales py_repr cat (before ++ sale :: after)
  = ('(total_cost, errors) <- compute_total_sales py_repr cat before ;;
     sales_loop py_repr pd
       (total_cost,
        (errors
         ++ [(str_text py_repr product
              ++ " no encontrado en el catálogo")%string])%list)
       after).
Proof.
  intros Hpd Hp Hq Hnp Hnq Hkey Hrepr.
  rewrite (compute_total_sales_at cat pd before after sale Hpd).
  destruct (compute_total_sales py_repr cat before) as [[total errors] | e];
    cbn [rbind]; [| reflexivity].
  unfold sale_step. rewrite Hp, Hq. cbn [rbind]. rewrite Hnp, Hnq.
  cbn [orb]. rewrite Hkey. cbn [rbind negb].
  unfold not_found_message, py_str. rewrite Hrepr. reflexivity.
Qed.

(** C4, as amended: a record with Product and Quantity whose Product is a
    key of the price mapping and whose Quantity is not an int or a float, or
    is negative, and whose Quantity and Product can be printed (they hold
    no int of more than 4300 digits), adds the error
    "Cantidad <quantity> inválido para <product>" and leaves the total as
    it was, wherever the record stands in the input. *)
Theorem invalid_quantity_error (cat : list value) (pd : pydict)
  (before after : list value) (sale product quantity : value) :
  build_price_dict [] cat = Ok pd ->
  dict_get sale "Product" = Ok product ->
  dict_get sale "Quantity" = Ok quantity ->
  is_none product = false ->
  is_none quantity = false ->
  dict_contains pd product = Ok true ->
  is_int_or_float quantity = false \/ lt_zero quantity = true ->
  repr_raises quantity = false ->
  repr_raises product = false ->
  compute_total_sales py_repr cat (before ++ sale :: after)
  = ('(total_cost, errors) <- compute_total_sales py_repr cat before ;;
     sales_loop py_repr pd
       (total_cost,
        (errors
         ++ [("Cantidad " ++ str_text py_repr quantity
              ++ " inválido para " ++ str_text py_repr product)%string])%list)
       after).
Proof.
  intros Hpd Hp Hq Hnp Hnq Hkey Hbad Hrq Hrp.
  rewrite (compute_total_sales_at cat pd before after sale Hpd).
  destruct (compute_total_sales py_repr cat before) as [[total errors] | e];
    cbn [rbind]; [| reflexivity].
  unfold sale_step. rewrite Hp, Hq. cbn [rbind]. rewrite Hnp, Hnq.
  cbn [orb]. rewrite Hkey. cbn [rbind negb].
  assert (negb (is_int_or_float quantity) || lt_zero quantity = true) as ->.
  { destruct Hbad as [-> | ->]; [reflexivity | apply orb_true_r]. }
  unfold invalid_quantity_message, py_str. rewrite Hrq, Hrp. reflexivity.
Qed.

(** C5: the price mapping gives a title the price of the last catalogue
    entry with that title, whatever entries with the same title come before
    it, and a sale of that product that passes the checks is priced at it. *)
Theorem last_title_wins (cat pre post : list value) (pd : pydict)
  (item title price : value) (h : key) :
  build_price_dict [] cat = Ok pd ->
  cat = (pre ++ item :: post)%list ->
  subscript item "title" = Ok title ->
  subscript item "price" = Ok price ->
  hash_key title = Ok h ->
  Forall (fun later =>
            forall t, subscript later "title" = Ok t -> hash_key t <> Ok h)
         post ->
  dict_lookup pd h = Some price
  /\ forall (sale product quantity : value) (total : float)
        (errors : list string),
      dict_get sale "Product" = Ok product ->
      dict_get sale "Quantity" = Ok quantity ->
      hash_key product = Ok h ->
      is_none product = false ->
      is_none quantity = false ->
      is_int_or_float quantity = true ->
      lt_zero quantity = false ->
      sale_step py_repr pd (total, errors) sale
      = (a <- amount price quantity ;; Ok ((total + a)%float, errors)).
Proof.
  intros Hpd -> Htitle Hprice Hh Hpost.
  assert (Hlookup : dict_lookup pd h = Some price).
  { rewrite build_price_dict_app in Hpd.
    apply rbind_ok in Hpd as (pd0 & _ & Hpd).
    cbn [build_price_dict] in Hpd.
    rewrite Htitle in Hpd. cbn [rbind] in Hpd.
    rewrite Hprice in Hpd. cbn [rbind] in Hpd.
    unfold dict_setitem in Hpd. rewrite Hh in Hpd. cbn [rbind] in Hpd.
    rewrite (build_price_dict_other_titles post _ pd h Hpd Hpost).
    rewrite dict_lookup_store.
    now rewrite (proj2 (key_eqb_eq h h) eq_refl). }
  split; [exact Hlookup |].
  intros sale product quantity total errors Hp Hq Hph Hnp Hnq Hnum Hneg.
  unfold sale_step. rewrite Hp, Hq. cbn [rbind]. rewrite Hnp, Hnq.
  unfold dict_contains, dict_getitem. rewrite Hph. cbn [rbind orb].
  rewrite Hlookup. cbn [negb]. rewrite Hnum, Hneg. cbn [negb orb].
  unfold amount, float_iadd. cbn [rbind].
  destruct (py_mul price quantity) as [x | e]; cbn [rbind]; [| reflexivity].
  destruct (to_double x); reflexivity.
Qed.





(** *** The exceptions of the aggregator *)

Lemma int_to_float_exn (z : Z) (e : exn) :
  int_to_float z = Raise e -> aggregator_exn e = true.
Proof.
  unfold int_to_float. destruct (is_infinity (Z2float z)).
  - now intros [= <-].
  - discriminate.
Qed.

(** One step of a proof that an exception is the aggregator's: the outcome
    is plain, or it is that of a conversion to float. *)
Ltac exn_step :=
  match goal with
  | |- Ok _ = Raise _ -> _ => discriminate
  | |- Raise _ = Raise _ -> _ => intros [= <-]; reflexivity
  | |- int_to_float _ = Raise _ -> _ => apply int_to_float_exn
  | |- context [rbind (int_to_float ?z) _] =>
      let E := fresh "E" in
      destruct (int_to_float z) eqn:E; cbn [rbind];
      [| intros [= <-]; exact (int_to_float_exn _ _ E)]
  end.

Lemma subscript_exn (item : value) (name : string) (e : exn) :
  subscript item name = Raise e -> aggregator_exn e = true.
Proof.
  unfold subscript. destruct item; try exn_step.
  destruct (assoc d name); exn_step.
Qed.

Lemma hash_key_exn (v : value) (e : exn) :
  hash_key v = Raise e -> aggregator_exn e = true.
Proof. destruct v; cbn [hash_key]; exn_step. Qed.

Lemma py_mul_exn (a b : value) (e : exn) :
  py_mul a b = Raise e -> aggregator_exn e = true.
Proof.
  destruct a, b; cbn [py_mul as_int]; repeat exn_step.
Qed.

Lemma float_iadd_exn (total : float) (x : value) (e : exn) :
  float_iadd total x = Raise e -> aggregator_exn e = true.
Proof.
  unfold float_iadd. destruct x; cbn [to_double as_int rbind];
    repeat exn_step.
Qed.

Lemma build_price_dict_exn (cat : list value) (pd : pydict) (e : exn) :
  build_price_dict pd cat = Raise e -> aggregator_exn e = true.
Proof.
  revert pd. induction cat as [| item cat IH]; intros pd; cbn [build_price_dict].
  - discriminate.
  - destruct (subscript item "title") as [title | e1] eqn:Ht; cbn [rbind];
      [| intros [= <-]; exact (subscript_exn _ _ _ Ht)].
    destruct (subscript item "price") as [price | e1] eqn:Hp; cbn [rbind];
      [| intros [= <-]; exact (subscript_exn _ _ _ Hp)].
    unfold dict_setitem.
    destruct (hash_key title) as [h | e1] eqn:Hh; cbn [rbind];
      [| intros [= <-]; exact (hash_key_exn _ _ Hh)].
    apply IH.
Qed.

(** An error that cannot be built raises [ValueError]. *)
Ltac message_exn :=
  unfold invalid_record_message, not_found_message, invalid_quantity_message,
    py_str;
  repeat match goal with
         | |- context [if repr_raises ?v then _ else _] =>
             destruct (repr_raises v); cbn [rbind]
         end;
  intros H; try discriminate H; injection H as <-; reflexivity.

Lemma sale_step_exn (pd : pydict) (state : float * list string) (sale : value)
  (e : exn) :
  sale_step py_repr pd state sale = Raise e -> aggregator_exn e = true.
Proof.
  destruct state as [total errors].
  destruct sale as [| | | | | | d]; try (intros [= <-]; reflexivity).
  unfold sale_step. rewrite !(dict_get_dict d).
  generalize (field (VDict d) "Product") (field (VDict d) "Quantity").
  intros product quantity. cbn [rbind].
  destruct (is_none product || is_none quantity); [message_exn |].
  unfold dict_contains, dict_getitem.
  destruct (hash_key product) as [h | e1] eqn:Hh; cbn [rbind];
    [| intros [= <-]; exact (hash_key_exn _ _ Hh)].
  destruct (dict_lookup pd h) as [price |]; cbn [negb rbind];
    [| message_exn].
  destruct (negb (is_int_or_float quantity) || lt_zero quantity);
    [message_exn |].
  destruct (py_mul price quantity) as [x | e1] eqn:Hmul; cbn [rbind];
    [| intros [= <-]; exact (py_mul_exn _ _ _ Hmul)].
  destruct (float_iadd total x) as [t | e1] eqn:Hadd; cbn [rbind];
    [discriminate | intros [= <-]; exact (float_iadd_exn _ _ _ Hadd)].
Qed.

Lemma sales_loop_exn (pd : pydict) (sales : list value)
  (state : float * list string) (e : exn) :
  sales_loop py_repr pd state sales = Raise e -> aggregator_exn e = true.
Proof.
  revert state. induction sales as [| sale sales IH]; intros state;
    cbn [sales_loop].
  - discriminate.
  - destruct (sale_step py_repr pd state sale) as [state' | e1] eqn:Hstep;
      cbn [rbind].
    + apply IH.
    + intros [= <-]. exact (sale_step_exn _ _ _ _ Hstep).
Qed.

(** The aggregator raises [KeyError], [TypeError], [AttributeError] or
    [OverflowError], and nothing else. *)
Lemma compute_total_sales_exn (cat sales : list value) (e : exn) :
  compute_total_sales py_repr cat sales = Raise e -> aggregator_exn e = true.
Proof.
  unfold compute_total_sales.
  destruct (build_price_dict [] cat) as [pd | e1] eqn:Hpd; cbn [rbind].
  - apply sales_loop_exn.
  - intros [= <-]. exact (build_price_dict_exn _ _ _ Hpd).
Qed.

(** C9: a catalogue with an entry that has no "title" or no "price" makes
    the function raise, whatever the sales: nothing is returned, neither a
    total nor an error list. *)
Theorem missing_catalogue_key_raises (cat sales : list value) (item : value) :
  In item cat ->
  has_key item "title" = false \/ has_key item "price" = false ->
  raises (compute_total_sales py_repr cat sales).
Proof.
  intros Hin Hlacks. unfold compute_total_sales.
  apply raises_bind. exact (build_price_dict_raises cat item [] Hin Hlacks).
Qed.

End AggregatorProperties.

(** ** The program *)

Lemma string_app_assoc (a b c : string) : ((a ++ b) ++ c = a ++ (b ++ c))%string.
Proof. induction a as [| ch a IH]; simpl; [reflexivity | now rewrite IH]. Qed.

Lemma string_app_nil_r (a : string) : (a ++ "")%string = a.
Proof. induction a as [| ch a IH]; simpl; [reflexivity | now rewrite IH]. Qed.

Lemma string_app_inv_head (a b c : string) : (a ++ b = a ++ c)%string -> b = c.
Proof.
  induction a as [| ch a IH]; simpl; intros H; [exact H |].
  injection H as H. now apply IH.
Qed.

Lemma concat_cons (x : string) (xs : list string) :
  String.concat "" (x :: xs) = (x ++ String.concat "" xs)%string.
Proof.
  destruct xs as [| y ys]; cbn [String.concat].
  - now rewrite string_app_nil_r.
  - reflexivity.
Qed.

Lemma io_for_print (errors : list string) (c : console) :
  io_for errors (fun error => print (" - " ++ error)) c
  = (Console
       (stdout c
        ++ String.concat "" (map (fun error => " - " ++ error ++ nl) errors))
       (results_file c),
     Ok tt).
Proof.
  revert c. induction errors as [| error errors IH]; intros c.
  - cbn [io_for map String.concat]. unfold io_ret.
    rewrite string_app_nil_r. now destruct c.
  - cbn [io_for map]. unfold io_bind at 1. unfold print at 1.
    rewrite IH. cbn [stdout results_file].
    rewrite concat_cons, !string_app_assoc. reflexivity.
Qed.

Lemma io_for_write (errors : list string) (c : console) (old : string) :
  results_file c = Some old ->
  io_for errors (fun error => write (" - " ++ error ++ nl)) c
  = (Console (stdout c)
       (Some (old ++ String.concat ""
                       (map (fun error => " - " ++ error ++ nl) errors))),
     Ok tt).
Proof.
  revert c old. induction errors as [| error errors IH]; intros c old Hold.
  - cbn [io_for map String.concat]. unfold io_ret.
    rewrite string_app_nil_r. destruct c. cbn in Hold. now subst.
  - cbn [io_for map]. unfold io_bind at 1. unfold write at 1.
    rewrite Hold.
    erewrite IH by reflexivity.
    cbn [stdout results_file].
    rewrite concat_cons, !string_app_assoc. reflexivity.
Qed.

(** The lines printed after the report. *)
Lemma print_error_lines (errors : list string) (c : console) :
  match errors with
  | [] => io_ret tt
  | _ =>
      (print "Errores encontrados:" ;;;
       io_for errors (fun error => print (" - " ++ error)))%io
  end c
  = (Console (stdout c ++ error_lines errors) (results_file c), Ok tt).
Proof.
  destruct errors as [| error errors].
  - unfold io_ret, error_lines. rewrite string_app_nil_r. now destruct c.
  - unfold io_bind at 1. unfold print at 1. rewrite io_for_print.
    cbn [stdout results_file]. unfold error_lines.
    rewrite !string_app_assoc. reflexivity.
Qed.

(** The lines written to the results file after the report. *)
Lemma write_error_lines (errors : list string) (c : console) (old : string) :
  results_file c = Some old ->
  match errors with
  | [] => io_ret tt
  | _ =>
      (write ("Errores encontrados:" ++ nl) ;;;
       io_for errors (fun error => write (" - " ++ error ++ nl)))%io
  end c
  = (Console (stdout c) (Some (old ++ error_lines errors)), Ok tt).
Proof.
  intros Hold. destruct errors as [| error errors].
  - unfold io_ret, error_lines. rewrite string_app_nil_r.
    destruct c. cbn in Hold. now subst.
  - unfold io_bind at 1. unfold write at 1. rewrite Hold.
    erewrite io_for_write by reflexivity.
    cbn [stdout results_file]. unfold error_lines.
    rewrite !string_app_assoc. reflexivity.
Qed.

Section ProgramProperties.

Variable py_repr : value -> string.
Variable py_int : string -> option Z.

(** *** The loader *)

Lemma load_json_file_list (w : world) (path : string) (data : list value)
  (c : console) :
  read_json w path = Ok (VList data) ->
  load_json_file w path c = (c, Ok (Some data)).
Proof. intros H. unfold load_json_file. now rewrite H. Qed.

(** The four failures the loader handles: it prints one line, which depends
    on the failure and holds the path, and returns [None]. *)
Lemma load_json_file_handled (w : world) (path : string) (c : console) :
  let printed line := (Console (stdout c ++ line ++ nl) (results_file c), Ok None) in
  (forall v, read_json w path = Ok v -> (forall data, v <> VList data) ->
     load_json_file w path c
     = printed ("Error: El archivo " ++ path ++ " no es un JSON válida.")%string)
  /\ (read_json w path = Raise FileNotFoundError ->
      load_json_file w path c
      = printed ("Error: El archivo " ++ path ++ " no se encontró.")%string)
  /\ (read_json w path = Raise JSONDecodeError ->
      load_json_file w path c
      = printed ("Error: El archivo " ++ path
                 ++ " tiene un formato JSON inválido.")%string)
  /\ (forall msg, read_json w path = Raise (OSError msg) ->
      load_json_file w path c
      = printed ("Error inesperado al leer " ++ path ++ ": " ++ msg)%string).
Proof.
  intros printed. unfold load_json_file. repeat split.
  - intros v -> Hv. destruct v; try reflexivity. now elim (Hv l).
  - now intros ->.
  - now intros ->.
  - now intros msg ->.
Qed.

(** The lines of the first three failures differ from one another for one
    path, and the fourth differs from them whatever the paths. *)
Lemma load_json_file_lines_differ (path path' msg : string) :
  let not_a_list := ("Error: El archivo " ++ path ++ " no es un JSON válida.")%string in
  let not_found := ("Error: El archivo " ++ path ++ " no se encontró.")%string in
  let bad_json :=
    ("Error: El archivo " ++ path ++ " tiene un formato JSON inválido.")%string in
  let unexpected := ("Error inesperado al leer " ++ path' ++ ": " ++ msg)%string in
  not_a_list <> not_found /\ not_a_list <> bad_json /\ not_found <> bad_json
  /\ unexpected <> not_a_list /\ unexpected <> not_found
  /\ unexpected <> bad_json.
Proof.
  cbv zeta. repeat split; intros H.
  - apply (string_app_inv_head "Error: El archivo ") in H.
    apply string_app_inv_head in H. discriminate H.
  - apply (string_app_inv_head "Error: El archivo ") in H.
    apply string_app_inv_head in H. discriminate H.
  - apply (string_app_inv_head "Error: El archivo ") in H.
    apply string_app_inv_head in H. discriminate H.
  - discriminate H.
  - discriminate H.
  - discriminate H.
Qed.

(** C6: an exception that is none of [FileNotFoundError], [JSONDecodeError]
    and [OSError] goes through the loader to its caller: the loader prints
    nothing and raises it.  A file that is not UTF-8 text raises
    [UnicodeDecodeError] while it is read, and that is such an exception. *)
Theorem load_json_file_undecodable (w : world) (path : string) (c : console)
  (e : exn) :
  read_json w path = Raise e ->
  loader_catches e = false ->
  load_json_file w path c = (c, Raise e).
Proof.
  intros Hread Hcatch. unfold load_json_file. rewrite Hread.
  destruct e; try reflexivity; discriminate Hcatch.
Qed.

(** *** The exit status *)






(** *** Records with lowercase keys *)







(** C8, as amended: when both files load and the aggregator returns, the
    results file holds the line "Total de ventas: $<total, 2 decimals>", the
    line "Tiempo de ejecución: <elapsed, 4 decimals> segundos" and, when
    there are errors, the line "Errores encontrados:" and one line
    " - <error>" for each; standard output holds the same lines with one
    empty line after the second. *)
Theorem report_text (w : world) (cat sales : list value) (total : float)
  (errors : list string) :
  List.length (argv w) = 3%nat ->
  read_json w (nth 1 (argv w) "") = Ok (VList cat) ->
  read_json w (nth 2 (argv w) "") = Ok (VList sales) ->
  sales <> [] ->
  compute_total_sales py_repr cat sales = Ok (total, errors) ->
  open_results w = Ok tt ->
  let report :=
    ("Total de ventas: $" ++ format_fixed 2 total ++ nl
     ++ "Tiempo de ejecución: "
     ++ format_fixed 4 (time_end w - time_start w)%float ++ " segundos" ++ nl)%string
  in
  main py_repr w console0
  = (Console (report ++ nl ++ error_lines errors)
       (Some (report ++ error_lines errors)%string),
     Ok tt).
Proof.
  intros Hargv Hcat Hsales Hne Hcompute Hopen report.
  unfold main. rewrite Hargv. cbn [Nat.eqb negb].
  unfold load_json_file. rewrite Hcat, Hsales.
  destruct sales as [| sale sales]; [contradiction |].
  unfold io_bind at 1. unfold io_ret at 1.
  unfold io_bind at 1. unfold io_ret at 1.
  unfold io_bind at 1. unfold io_lift at 1. rewrite Hcompute.
  unfold io_bind at 1. unfold print at 1. cbn [stdout results_file console0].
  unfold io_bind at 1. rewrite print_error_lines. cbn [stdout results_file].
  unfold io_bind at 1. unfold open_results_file at 1. rewrite Hopen.
  cbn [stdout results_file].
  unfold io_bind at 1. unfold write at 1. cbn [stdout results_file].
  erewrite write_error_lines by reflexivity. cbn [stdout results_file].
  fold report. unfold result_message. fold report.
  cbn [append]. rewrite !string_app_assoc. reflexivity.
Qed.

End ProgramProperties.

(** ** Examples *)



(** An unknown product between two sales of apples. *)
Lemma unknown_product_error_witness :
  compute_total_sales repr_simple apple_catalogue
    [sale_of "Apple" (VInt 3); sale_of "Banana" (VInt 1);
     sale_of "Apple" (VInt 1)]
  = Ok (8%float, ["Banana no encontrado en el catálogo"]).
Proof.
  exact (unknown_product_error repr_simple apple_catalogue apple_prices
           [sale_of "Apple" (VInt 3)] [sale_of "Apple" (VInt 1)]
           (sale_of "Banana" (VInt 1)) (VStr "Banana") (VInt 1)
           eq_refl eq_refl eq_refl eq_refl eq_refl eq_refl eq_refl).
Defined.

(** C3, as stated, fails: the error of an unknown product is in Spanish; a
    Product that is a list is no key of the price mapping, and looking it up
    raises [TypeError]; a Product of 5001 digits is no key either, and
    printing it raises [ValueError]. *)
Lemma unknown_product_text :
  (compute_total_sales repr_simple apple_catalogue [sale_of "Banana" (VInt 1)]
   = Ok (0%float, ["Banana no encontrado en el catálogo"])
   /\ compute_total_sales repr_simple apple_catalogue
        [sale_of "Banana" (VInt 1)]
      <> Ok (0%float, ["Banana not found in catalogue"]))
  /\ compute_total_sales repr_simple apple_catalogue
       [VDict [("Product", VList []); ("Quantity", VInt 1)]]
     = Raise TypeError
  /\ compute_total_sales repr_simple apple_catalogue
       [VDict [("Product", VInt (10 ^ 5000)); ("Quantity", VInt 1)]]
     = Raise ValueError.
Proof.
  split; [split; [reflexivity | discriminate] |].
  split; vm_compute; reflexivity.
Qed.

(** A negative quantity and a quantity that is a string, between two sales
    of apples. *)
Lemma invalid_quantity_error_witness :
  compute_total_sales repr_simple apple_catalogue
    [sale_of "Apple" (VInt 3); sale_of "Apple" (VInt (-1));
     sale_of "Apple" (VStr "two"); sale_of "Apple" (VInt 1)]
  = Ok (8%float,
        ["Cantidad -1 inválido para Apple"; "Cantidad two inválido para Apple"]).
Proof.
  exact (invalid_quantity_error repr_simple apple_catalogue apple_prices
           [sale_of "Apple" (VInt 3)]
           [sale_of "Apple" (VStr "two"); sale_of "Apple" (VInt 1)]
           (sale_of "Apple" (VInt (-1))) (VStr "Apple") (VInt (-1))
           eq_refl eq_refl eq_refl eq_refl eq_refl eq_refl
           (or_intror eq_refl) eq_refl eq_refl).
Defined.

(** C4, as stated, fails: the error of an invalid quantity is in Spanish;
    and a negative quantity of 5001 digits cannot be printed, so that
    building its error raises [ValueError]. *)
Lemma invalid_quantity_text :
  (compute_total_sales repr_simple apple_catalogue
     [sale_of "Apple" (VInt (-1))]
   = Ok (0%float, ["Cantidad -1 inválido para Apple"])
   /\ compute_total_sales repr_simple apple_catalogue
        [sale_of "Apple" (VInt (-1))]
      <> Ok (0%float, ["invalid quantity -1 for Apple"]))
  /\ compute_total_sales repr_simple apple_catalogue
       [sale_of "Apple" (VInt (- 10 ^ 5000))]
     = Raise ValueError.
Proof.
  split; [split; [reflexivity | discriminate] |].
  vm_compute. reflexivity.
Qed.

(** Apples are listed at 1.0 and then at 2.0: a sale of three is 6.0. *)
Lemma last_title_wins_witness :
  build_price_dict [] fruit_catalogue = Ok fruit_prices
  /\ dict_lookup fruit_prices (KStr "Apple") = Some (VFloat 2)
  /\ sale_step repr_simple fruit_prices (0%float, []) (sale_of "Apple" (VInt 3))
     = Ok (6%float, []).
Proof.
  destruct (last_title_wins repr_simple fruit_catalogue
              [apple (VFloat 1)]
              [VDict [("title", VStr "Pear"); ("price", VFloat 0.5)]]
              fruit_prices (apple (VFloat 2)) (VStr "Apple") (VFloat 2)
              (KStr "Apple") eq_refl eq_refl eq_refl eq_refl eq_refl)
    as [Hlookup Hpriced].
  - repeat constructor. intros t [= <-]. discriminate.
  - split; [reflexivity |]. split; [exact Hlookup |].
    exact (Hpriced (sale_of "Apple" (VInt 3)) (VStr "Apple") (VInt 3)
             0%float [] eq_refl eq_refl eq_refl eq_refl eq_refl eq_refl
             eq_refl).
Defined.



(** An entry without a title. *)
Lemma missing_catalogue_key_raises_witness :
  raises (compute_total_sales repr_simple
            [apple (VFloat 2); VDict [("price", VFloat 3)]]
            [sale_of "Apple" (VInt 3)]).
Proof.
  apply (missing_catalogue_key_raises repr_simple
           [apple (VFloat 2); VDict [("price", VFloat 3)]]
           [sale_of "Apple" (VInt 3)] (VDict [("price", VFloat 3)])).
  - right. left. reflexivity.
  - left. reflexivity.
Defined.






(** A sales file that is not UTF-8 text. *)
Lemma load_json_file_undecodable_witness :
  load_json_file undecodable_world "ventas.json" console0
  = (console0, Raise UnicodeDecodeError).
Proof.
  exact (load_json_file_undecodable undecodable_world "ventas.json" console0
           UnicodeDecodeError eq_refl eq_refl).
Defined.

(** A run with one error. *)
Lemma report_text_witness :
  main repr_simple
    (world_of (VList apple_catalogue)
       (VList [sale_of "Apple" (VInt 3); sale_of "Banana" (VInt 1)]))
    console0
  = (Console
       ("Total de ventas: $6.00" ++ nl
        ++ "Tiempo de ejecución: 0.5000 segundos" ++ nl
        ++ nl
        ++ "Errores encontrados:" ++ nl
        ++ " - Banana no encontrado en el catálogo" ++ nl)
       (Some ("Total de ventas: $6.00" ++ nl
              ++ "Tiempo de ejecución: 0.5000 segundos" ++ nl
              ++ "Errores encontrados:" ++ nl
              ++ " - Banana no encontrado en el catálogo" ++ nl)%string),
     Ok tt).
Proof.
  refine (report_text repr_simple
           (world_of (VList apple_catalogue)
              (VList [sale_of "Apple" (VInt 3); sale_of "Banana" (VInt 1)]))
           apple_catalogue
           [sale_of "Apple" (VInt 3); sale_of "Banana" (VInt 1)]
           6%float ["Banana no encontrado en el catálogo"]
           eq_refl eq_refl eq_refl _ eq_refl eq_refl).
  discriminate.
Defined.

(** C8, as stated, fails: the lines are in Spanish, and standard output has
    an empty line that the results file has not. *)
Lemma report_texts_differ :
  main repr_simple
    (world_of (VList apple_catalogue) (VList [sale_of "Apple" (VInt 3)]))
    console0
  = (Console
       ("Total de ventas: $6.00" ++ nl
        ++ "Tiempo de ejecución: 0.5000 segundos" ++ nl ++ nl)
       (Some ("Total de ventas: $6.00" ++ nl
              ++ "Tiempo de ejecución: 0.5000 segundos" ++ nl)%string),
     Ok tt)
  /\ ("Total de ventas: $6.00" ++ nl
      ++ "Tiempo de ejecución: 0.5000 segundos" ++ nl ++ nl)%string
     <> ("Total de ventas: $6.00" ++ nl
         ++ "Tiempo de ejecución: 0.5000 segundos" ++ nl)%string
  /\ ("Total de ventas: $6.00")%string <> ("Total sales: $6.00")%string.
Proof. split; [reflexivity | split; discriminate]. Qed.

(** * Further properties *)

(** ** The loaders *)

Section LoaderProperties.

Variable py_repr : value -> string.
Variable py_int : string -> option Z.

(** X1: when [load_json_file] returns, the results file is as it was; a
    list is returned only for a document that is that list, with nothing
    printed; [None] is returned after one of the four messages, which holds
    the path, and a line feed have been added to standard output. *)
Theorem load_json_file_returns (w : world) (path : string) (c c' : console)
  (r : option (list value)) :
  load_json_file w path c = (c', Ok r) ->
  results_file c' = results_file c
  /\ match r with
     | Some data => c' = c /\ read_json w path = Ok (VList data)
     | None =>
         exists line, load_message path line
                      /\ names_path path line
                      /\ stdout c' = (stdout c ++ line ++ nl)%string
     end.
Proof.
  unfold load_json_file, io_bind, print, io_ret, io_raise, load_message.
  destruct (read_json w path) as [v | e]; [destruct v | destruct e];
    intros H; try discriminate H; injection H as <- <-;
    (split; [reflexivity |]); try (split; reflexivity).
  all: first
    [ exists ("Error: El archivo " ++ path ++ " no es un JSON válida.")%string;
      split; [now left |]; split;
      [ exists "Error: El archivo "%string, " no es un JSON válida."%string;
        reflexivity
      | reflexivity ]
    | exists ("Error: El archivo " ++ path ++ " no se encontró.")%string;
      split; [now right; left |]; split;
      [ exists "Error: El archivo "%string, " no se encontró."%string;
        reflexivity
      | reflexivity ]
    | exists ("Error: El archivo " ++ path
              ++ " tiene un formato JSON inválido.")%string;
      split; [now right; right; left |]; split;
      [ exists "Error: El archivo "%string,
          " tiene un formato JSON inválido."%string;
        reflexivity
      | reflexivity ]
    | exists ("Error inesperado al leer " ++ path ++ ": " ++ msg)%string;
      split; [right; right; right; now exists msg |]; split;
      [ exists "Error inesperado al leer "%string, (": " ++ msg)%string;
        reflexivity
      | reflexivity ] ].
Qed.

Lemma string_app_nl_inv (line line' : string) :
  (line ++ nl = line' ++ nl)%string -> line = line'.
Proof.
  revert line'. induction line as [| ch line IH]; intros [| ch' line'] H;
    cbn in H.
  - reflexivity.
  - injection H as _ H. destruct line'; discriminate H.
  - injection H as _ H. destruct line; discriminate H.
  - injection H as -> H. f_equal. now apply IH.
Qed.

Lemma print_differs (c : console) (line line' : string) :
  line <> line' ->
  stdout (fst ((print line ;;; io_ret (A := option (list value)) None)%io c))
  <> stdout (fst ((print line' ;;; io_ret (A := option (list value)) None)%io c)).
Proof.
  unfold io_bind, print, io_ret. cbn [fst stdout]. intros Hne H.
  apply string_app_inv_head in H. apply Hne.
  now apply string_app_nl_inv.
Qed.

(** X2: two failures of different kinds, on one path and from one console,
    leave different texts on standard output. *)
Theorem load_json_file_tells_failures (w w' : world) (path : string)
  (c : console) (k k' : load_failure) :
  failure_of (read_json w path) = Some k ->
  failure_of (read_json w' path) = Some k' ->
  k <> k' ->
  stdout (fst (load_json_file w path c))
  <> stdout (fst (load_json_file w' path c)).
Proof.
  intros Hk Hk' Hne.
  pose proof (load_json_file_lines_differ path path) as Hlines.
  unfold load_json_file, failure_of in *.
  destruct (read_json w path) as [v | e]; [destruct v | destruct e];
    try discriminate Hk; injection Hk as <-;
    (destruct (read_json w' path) as [v' | e']; [destruct v' | destruct e']);
    try discriminate Hk'; injection Hk' as <-;
    try (now elim Hne);
    apply print_differs;
    first [specialize (Hlines msg) | specialize (Hlines ""%string)];
    cbv zeta in Hlines;
    destruct Hlines as (H1 & H2 & H3 & H4 & H5 & H6);
    first [assumption | intros E; symmetry in E; contradiction].
Qed.

Lemma csv_rows_returns (path : string) (rows : list (list string))
  (acc : list value) (c : console) :
  snd (csv_rows py_repr py_int path rows acc c)
  = Ok (acc ++ flat_map (row_record py_int) rows)%list
  /\ results_file (fst (csv_rows py_repr py_int path rows acc c))
     = results_file c.
Proof.
  revert acc c. induction rows as [| row rows IH]; intros acc c;
    cbn [csv_rows flat_map].
  - unfold io_ret. cbn. now rewrite app_nil_r.
  - assert (Hskip : forall text,
               snd ((print text ;;; csv_rows py_repr py_int path rows acc)%io c)
               = Ok (acc ++ flat_map (row_record py_int) rows)%list
               /\ results_file
                    (fst ((print text ;;;
                           csv_rows py_repr py_int path rows acc)%io c))
                  = results_file c).
    { intros text. unfold io_bind, print.
      destruct (IH acc (Console (stdout c ++ text ++ nl) (results_file c)))
        as [-> ->].
      split; reflexivity. }
    destruct row as [| product [| quantity [| extra row]]];
      cbn [row_record app]; try apply Hskip.
    destruct (py_int quantity) as [q |]; cbn [app]; [| apply Hskip].
    destruct (IH (acc ++ [csv_sale product q])%list c) as [-> ->].
    split; [| reflexivity]. now rewrite <- app_assoc.
Qed.

Lemma csv_except_caught (path : string) (e : exn) (records : list value)
  (c : console) :
  csv_catches e = true ->
  snd (csv_except path e records c) = Ok records
  /\ results_file (fst (csv_except path e records c)) = results_file c.
Proof. destruct e; try discriminate; intros _; split; reflexivity. Qed.

Lemma csv_except_uncaught (path : string) (e : exn) (records : list value)
  (c : console) :
  csv_catches e = false ->
  csv_except path e records c = (c, Raise e).
Proof. destruct e; try discriminate; intros _; reflexivity. Qed.

(** X3: when [load_csv_file] returns, it returns the records of the rows
    read after the header, in order: a row of two fields whose second is
    an integer gives a record, any other row gives none; a file that cannot
    be opened gives the empty list.  The results file is as it was. *)
Theorem load_csv_file_returns (w : world) (path : string) (c : console)
  (records : list value) :
  snd (load_csv_file py_repr py_int w path c) = Ok records ->
  records = csv_records py_int (read_csv w path)
  /\ results_file (fst (load_csv_file py_repr py_int w path c))
     = results_file c.
Proof.
  unfold load_csv_file, csv_records.
  destruct (read_csv w path) as [[[| header rows] [e |]] | e].
  - destruct (csv_catches e) eqn:He.
    + destruct (csv_except_caught path e [] c He) as [-> ->].
      now intros [= <-].
    + rewrite (csv_except_uncaught path e [] c He). discriminate.
  - discriminate.
  - unfold io_bind.
    destruct (csv_rows_returns path rows [] c) as [Hr Hf].
    destruct (csv_rows py_repr py_int path rows [] c) as [c1 r].
    cbn [fst snd] in Hr, Hf. subst r. cbn [app].
    destruct (csv_catches e) eqn:He.
    + destruct (csv_except_caught path e
                  (flat_map (row_record py_int) rows) c1 He) as [-> ->].
      now intros [= <-].
    + rewrite (csv_except_uncaught path e _ c1 He). discriminate.
  - unfold io_bind.
    destruct (csv_rows_returns path rows [] c) as [Hr Hf].
    destruct (csv_rows py_repr py_int path rows [] c) as [c1 r].
    cbn [fst snd] in Hr, Hf. subst r. cbn [app io_ret fst snd].
    now intros [= <-].
  - destruct (csv_catches e) eqn:He.
    + destruct (csv_except_caught path e [] c He) as [-> ->].
      now intros [= <-].
    + rewrite (csv_except_uncaught path e [] c He). discriminate.
Qed.

(** X4: [load_csv_file] raises in three cases and no other: opening the
    file raises an exception that is neither [FileNotFoundError] nor
    [OSError]; or the reader raises one; or the file is empty, and then
    skipping the header raises [StopIteration]. *)
Theorem load_csv_file_raises (w : world) (path : string) (c : console)
  (e : exn) :
  snd (load_csv_file py_repr py_int w path c) = Raise e <->
  (csv_catches e = false
   /\ (read_csv w path = Raise e
       \/ exists rows, read_csv w path = Ok (rows, Some e)))
  \/ (e = StopIteration /\ read_csv w path = Ok ([], None)).
Proof.
  unfold load_csv_file.
  destruct (read_csv w path) as [[[| header rows] [e' |]] | e'].
  - destruct (csv_catches e') eqn:He.
    + rewrite (proj1 (csv_except_caught path e' [] c He)). split.
      * discriminate.
      * intros [[Hc [H | [rows [= _ <-]]]] | [_ H]];
          try discriminate H; congruence.
    + rewrite (csv_except_uncaught path e' [] c He). cbn [snd]. split.
      * intros [= <-]. left. split; [exact He |]. right. now exists [].
      * intros [[_ [H | [rows [= _ <-]]]] | [_ H]];
          try discriminate H; reflexivity.
  - cbn. split.
    + intros [= <-]. now right.
    + intros [[_ [H | [rows H]]] | [-> _]];
        try discriminate H; reflexivity.
  - unfold io_bind.
    destruct (csv_rows_returns path rows [] c) as [Hr _].
    destruct (csv_rows py_repr py_int path rows [] c) as [c1 r].
    cbn [snd] in Hr. subst r.
    destruct (csv_catches e') eqn:He.
    + rewrite (proj1 (csv_except_caught path e' _ c1 He)). split.
      * discriminate.
      * intros [[Hc [H | [rows' [= _ <-]]]] | [_ H]];
          try discriminate H; congruence.
    + rewrite (csv_except_uncaught path e' _ c1 He). cbn [snd]. split.
      * intros [= <-]. left. split; [exact He |]. right. now eexists.
      * intros [[_ [H | [rows' [= _ <-]]]] | [_ H]];
          try discriminate H; reflexivity.
  - unfold io_bind.
    destruct (csv_rows_returns path rows [] c) as [Hr _].
    destruct (csv_rows py_repr py_int path rows [] c) as [c1 r].
    cbn [snd] in Hr. subst r. cbn. split.
    + discriminate.
    + intros [[_ [H | [rows' H]]] | [_ H]]; discriminate H.
  - destruct (csv_catches e') eqn:He.
    + rewrite (proj1 (csv_except_caught path e' [] c He)). split.
      * discriminate.
      * intros [[Hc [[= <-] | [rows H]]] | [_ H]];
          try discriminate H; congruence.
    + rewrite (csv_except_uncaught path e' [] c He). cbn [snd]. split.
      * intros [= <-]. left. split; [exact He |]. now left.
      * intros [[_ [[= <-] | [rows H]]] | [_ H]];
          try discriminate H; reflexivity.
Qed.

End LoaderProperties.

(** ** The aggregator *)

Section AggregatorFurther.

Variable py_repr : value -> string.

(** What a record does is one of three things, whatever the state it is
    met in: it raises; or it is invalid and adds its error; or it is valid
    and adds its amount. *)
Lemma sale_step_shape (pd : pydict) (sale : value) :
  (exists x, forall state, sale_step py_repr pd state sale = Raise x)
  \/ (invalid_record pd sale = true
      /\ forall total errors,
          sale_step py_repr pd (total, errors) sale
          = Ok (total, (errors ++ [record_error py_repr pd sale])%list))
  \/ (invalid_record pd sale = false
      /\ exists a, record_amount pd sale = Ok a
                   /\ forall total errors,
                       sale_step py_repr pd (total, errors) sale
                       = Ok ((total + a)%float, errors)).
Proof.
  destruct sale as [| | | | | | d];
    try (left; exists AttributeError; intros [total errors]; reflexivity).
  assert (Hstep : forall state,
             sale_step py_repr pd state (VDict d)
             = sale_step py_repr pd state (VDict d)) by reflexivity.
  unfold sale_step at 2 in Hstep.
  unfold invalid_record, record_error, record_amount, amount, is_key,
    dict_getitem.
  rewrite !(dict_get_dict d) in Hstep.
  remember (field (VDict d) "Product") as product eqn:Eproduct.
  remember (field (VDict d) "Quantity") as quantity eqn:Equantity.
  cbn [rbind] in Hstep. unfold dict_contains, dict_getitem, float_iadd in Hstep.
  destruct (is_none product) eqn:Hnp; cbn [orb] in *.
  { unfold invalid_record_message, py_str in Hstep.
    destruct (repr_raises (VDict d)); cbn [rbind] in Hstep.
    - left. exists ValueError. intros [total errors]. now rewrite Hstep.
    - right. left. split; [reflexivity |]. intros total errors.
      now rewrite Hstep. }
  destruct (is_none quantity) eqn:Hnq; cbn [orb] in *.
  { unfold invalid_record_message, py_str in Hstep.
    destruct (repr_raises (VDict d)); cbn [rbind] in Hstep.
    - left. exists ValueError. intros [total errors]. now rewrite Hstep.
    - right. left. split; [reflexivity |]. intros total errors.
      now rewrite Hstep. }
  destruct (hash_key product) as [h | x] eqn:Hh; cbn [rbind] in *.
  2: { left. exists x. intros [total errors]. now rewrite Hstep. }
  destruct (dict_lookup pd h) as [price |] eqn:Hl; cbn [negb orb rbind] in *.
  2: { unfold not_found_message, py_str in Hstep.
       destruct (repr_raises product); cbn [rbind] in Hstep.
       - left. exists ValueError. intros [total errors]. now rewrite Hstep.
       - right. left. split; [reflexivity |]. intros total errors.
         now rewrite Hstep. }
  destruct (negb (is_int_or_float quantity) || lt_zero quantity) eqn:Hbad.
  { unfold invalid_quantity_message, py_str in Hstep.
    destruct (repr_raises quantity); cbn [rbind] in Hstep.
    - left. exists ValueError. intros [total errors]. now rewrite Hstep.
    - destruct (repr_raises product); cbn [rbind] in Hstep.
      + left. exists ValueError. intros [total errors]. now rewrite Hstep.
      + right. left. split; [reflexivity |]. intros total errors.
        now rewrite Hstep. }
  destruct (py_mul price quantity) as [x | x] eqn:Hmul; cbn [rbind] in *.
  2: { left. exists x. intros [total errors]. now rewrite Hstep. }
  destruct (to_double x) as [a | y] eqn:Ha; cbn [rbind] in *.
  2: { left. exists y. intros [total errors]. now rewrite Hstep. }
  right. right. split; [reflexivity |]. exists a. split; [reflexivity |].
  intros total errors. now rewrite Hstep.
Qed.

(** The same for the loop: it raises whatever the state, or it adds the
    amounts of the valid records and the errors of the invalid ones. *)
Lemma sales_loop_shape (pd : pydict) (sales : list value) :
  (exists x, forall state, sales_loop py_repr pd state sales = Raise x)
  \/ exists amounts,
       Forall2 (fun sale a => record_amount pd sale = Ok a)
               (filter (valid_record pd) sales) amounts
       /\ forall total errors,
           sales_loop py_repr pd (total, errors) sales
           = Ok (fold_left PrimFloat.add amounts total,
                 (errors ++ map (record_error py_repr pd)
                                (filter (invalid_record pd) sales))%list).
Proof.
  induction sales as [| sale sales IH]; cbn [sales_loop filter].
  - right. exists []. split; [constructor |]. intros total errors.
    cbn. now rewrite app_nil_r.
  - unfold valid_record at 1.
    destruct (sale_step_shape pd sale)
      as [[x Hx] | [[Hinv Hstep] | [Hinv (a & Ha & Hstep)]]].
    + left. exists x. intros state. now rewrite Hx.
    + rewrite Hinv. cbn [negb map].
      destruct IH as [[x Hx] | (amounts & Hamounts & Hloop)].
      * left. exists x. intros [total errors]. rewrite Hstep. cbn [rbind].
        apply Hx.
      * right. exists amounts. split; [exact Hamounts |].
        intros total errors. rewrite Hstep. cbn [rbind].
        rewrite Hloop, <- app_assoc. reflexivity.
    + rewrite Hinv. cbn [negb].
      destruct IH as [[x Hx] | (amounts & Hamounts & Hloop)].
      * left. exists x. intros [total errors]. rewrite Hstep. cbn [rbind].
        apply Hx.
      * right. exists (a :: amounts). split; [now constructor |].
        intros total errors. rewrite Hstep. cbn [rbind].
        now rewrite Hloop.
Qed.

Lemma compute_total_sales_ok (cat sales : list value) (total : float)
  (errors : list string) :
  compute_total_sales py_repr cat sales = Ok (total, errors) ->
  exists pd amounts,
    build_price_dict [] cat = Ok pd
    /\ Forall2 (fun sale a => record_amount pd sale = Ok a)
               (filter (valid_record pd) sales) amounts
    /\ total = fold_left PrimFloat.add amounts 0%float
    /\ errors = map (record_error py_repr pd) (filter (invalid_record pd) sales)
    /\ forall total0 errors0,
        sales_loop py_repr pd (total0, errors0) sales
        = Ok (fold_left PrimFloat.add amounts total0,
              (errors0 ++ errors)%list).
Proof.
  unfold compute_total_sales. intros H.
  apply rbind_ok in H as (pd & Hpd & Hloop).
  destruct (sales_loop_shape pd sales) as [[x Hx] | (amounts & Ha & Hshape)].
  - rewrite Hx in Hloop. discriminate Hloop.
  - rewrite Hshape in Hloop. injection Hloop as <- <-.
    exists pd, amounts.
    split; [exact Hpd |]. split; [exact Ha |].
    split; [reflexivity |]. split; [reflexivity |].
    intros total0 errors0. now rewrite Hshape.
Qed.

(** X5: the errors of two lists of sales, one after the other, are the
    errors of the first followed by the errors of the second; the total
    goes on from the total of the first, adding the amounts of the valid
    records of the second in order, which added to 0.0 give the total of
    the second. *)
Theorem compute_total_sales_app (cat first second : list value)
  (total1 total2 : float) (errors1 errors2 : list string) :
  compute_total_sales py_repr cat first = Ok (total1, errors1) ->
  compute_total_sales py_repr cat second = Ok (total2, errors2) ->
  exists pd amounts,
    build_price_dict [] cat = Ok pd
    /\ Forall2 (fun sale a => record_amount pd sale = Ok a)
               (filter (valid_record pd) second) amounts
    /\ total2 = fold_left PrimFloat.add amounts 0%float
    /\ compute_total_sales py_repr cat (first ++ second)
       = Ok (fold_left PrimFloat.add amounts total1,
             (errors1 ++ errors2)%list).
Proof.
  intros H1 H2.
  apply compute_total_sales_ok in H2
    as (pd & amounts & Hpd & Hamounts & Htotal & _ & Hloop).
  exists pd, amounts.
  split; [exact Hpd |]. split; [exact Hamounts |]. split; [exact Htotal |].
  unfold compute_total_sales in *. rewrite Hpd in *. cbn [rbind] in *.
  rewrite sales_loop_app, H1. cbn [rbind]. apply Hloop.
Qed.

Lemma filter_nil_forall {A : Type} (f : A -> bool) (l : list A) :
  filter f l = [] <-> Forall (fun x => f x = false) l.
Proof.
  induction l as [| x l IH]; cbn [filter].
  - split; [constructor | reflexivity].
  - destruct (f x) eqn:Hx.
    + split; [discriminate |]. intros H. inversion H; congruence.
    + rewrite IH. split.
      * intros H. now constructor.
      * intros H. now inversion H.
Qed.

(** X6: when the aggregator returns, there are no more errors than
    records, and there are no errors exactly when every record is valid:
    its Product and Quantity are present, the Product is a key of the price
    mapping, the Quantity is a number that is not negative. *)
Theorem no_errors_all_valid (cat sales : list value) (total : float)
  (errors : list string) :
  compute_total_sales py_repr cat sales = Ok (total, errors) ->
  exists pd,
    build_price_dict [] cat = Ok pd
    /\ (List.length errors <= List.length sales)%nat
    /\ (errors = [] <-> Forall (fun sale => invalid_record pd sale = false) sales).
Proof.
  intros H.
  apply compute_total_sales_ok in H as (pd & amounts & Hpd & _ & _ & -> & _).
  exists pd. split; [exact Hpd |]. split.
  - rewrite length_map. apply filter_length_le.
  - rewrite <- filter_nil_forall. split.
    + intros Hmap. now apply map_eq_nil in Hmap.
    + now intros ->.
Qed.

Lemma build_price_dict_keys (cat : list value) (pd0 pd : pydict) (h : key) :
  build_price_dict pd0 cat = Ok pd ->
  dict_lookup pd h <> None <->
  dict_lookup pd0 h <> None
  \/ exists item title,
       In item cat /\ subscript item "title" = Ok title
       /\ hash_key title = Ok h.
Proof.
  revert pd0. induction cat as [| item cat IH]; intros pd0 Hbuild.
  - cbn in Hbuild. injection Hbuild as <-. split; [now left |].
    intros [H | (item & title & [] & _)]. exact H.
  - cbn [build_price_dict] in Hbuild.
    apply rbind_ok in Hbuild as (title & Htitle & Hbuild).
    apply rbind_ok in Hbuild as (price & Hprice & Hbuild).
    apply rbind_ok in Hbuild as (pd1 & Hset & Hbuild).
    unfold dict_setitem in Hset.
    apply rbind_ok in Hset as (h' & Hh' & [= <-]).
    rewrite (IH _ Hbuild), dict_lookup_store.
    destruct (key_eqb h' h) eqn:E.
    + apply key_eqb_eq in E. subst h'. split; intros _.
      * right. exists item, title. repeat split; [now left | | ]; assumption.
      * left. discriminate.
    + split.
      * intros [H | (item' & title' & Hin & Ht & Hh)]; [now left |].
        right. exists item', title'. repeat split; [now right | | ]; assumption.
      * intros [H | (item' & title' & [<- | Hin] & Ht & Hh)]; [now left | |].
        -- rewrite Htitle in Ht. injection Ht as <-.
           rewrite Hh' in Hh. injection Hh as <-.
           apply key_eqb_neq in E. now elim E.
        -- right. now exists item', title'.
Qed.

(** X7: the keys of the price mapping are the titles of the catalogue and
    nothing else: a product is found in it exactly when some entry of the
    catalogue has an equal title. *)
Theorem price_mapping_keys (cat : list value) (pd : pydict) (product : value) :
  build_price_dict [] cat = Ok pd ->
  dict_contains pd product = Ok true <->
  exists h item title,
    hash_key product = Ok h /\ In item cat
    /\ subscript item "title" = Ok title /\ hash_key title = Ok h.
Proof.
  intros Hbuild. unfold dict_contains.
  destruct (hash_key product) as [h | x]; cbn [rbind].
  - pose proof (build_price_dict_keys cat [] pd h Hbuild) as Hkeys.
    cbn [dict_lookup] in Hkeys. split.
    + intros Hfound.
      assert (Hsome : dict_lookup pd h <> None)
        by (destruct (dict_lookup pd h); [discriminate | discriminate Hfound]).
      apply Hkeys in Hsome as [H | (item & title & Hin & Ht & Hh)];
        [now elim H |].
      now exists h, item, title.
    + intros (h' & item & title & [= <-] & Hin & Ht & Hh).
      assert (Hsome : dict_lookup pd h <> None).
      { apply Hkeys. right. now exists item, title. }
      destruct (dict_lookup pd h); [reflexivity | now elim Hsome].
  - split; [discriminate |]. intros (h & _ & _ & H & _). discriminate H.
Qed.

Lemma sale_step_stops (pd : pydict) (sale : value)
  (state : float * list string) :
  stops_aggregator sale = true ->
  sale_step py_repr pd state sale
  = Raise (match sale with VDict _ => TypeError | _ => AttributeError end).
Proof.
  destruct state as [total errors].
  destruct sale as [| | | | | | d]; try reflexivity.
  unfold stops_aggregator, sale_step. rewrite !(dict_get_dict d).
  generalize (field (VDict d) "Product") (field (VDict d) "Quantity").
  intros product quantity H. apply andb_prop in H as [Hp Hq].
  apply negb_true_iff in Hq. cbn [rbind]. rewrite Hq.
  destruct product; try discriminate Hp; reflexivity.
Qed.

(** X8: a sale record that is not an object, or whose Product is a list or
    an object while it has a Quantity, is not reported as an error: the
    call raises, wherever the record stands, and with it go the total and
    the errors of the records before.  When the records before raise
    nothing, the exception is [AttributeError] for the first kind and
    [TypeError] for the second. *)
Theorem bad_record_stops_aggregator (cat before after : list value)
  (sale : value) :
  stops_aggregator sale = true ->
  raises (compute_total_sales py_repr cat (before ++ sale :: after))
  /\ forall state,
      compute_total_sales py_repr cat before = Ok state ->
      compute_total_sales py_repr cat (before ++ sale :: after)
      = Raise (match sale with VDict _ => TypeError | _ => AttributeError end).
Proof.
  intros Hstops. unfold compute_total_sales.
  destruct (build_price_dict [] cat) as [pd | x]; cbn [rbind].
  - rewrite sales_loop_app.
    destruct (sales_loop py_repr pd (0%float, []) before) as [state | x];
      cbn [rbind sales_loop]; rewrite ?(sale_step_stops pd sale _ Hstops);
      cbn [rbind].
    + split; [eexists; reflexivity | reflexivity].
    + split; [eexists; reflexivity | discriminate].
  - split; [eexists; reflexivity | discriminate].
Qed.

(** X9: a Quantity that is a boolean passes the check on numbers: [true]
    sells one unit and [false] none, without an error. *)
Theorem boolean_quantity_counts (pd : pydict) (sale product : value)
  (b : bool) (p total : float) (errors : list string) :
  dict_get sale "Product" = Ok product ->
  is_none product = false ->
  dict_getitem pd product = Ok (VFloat p) ->
  dict_get sale "Quantity" = Ok (VBool b) ->
  sale_step py_repr pd (total, errors) sale
  = Ok ((total + p * (if b then 1 else 0))%float, errors).
Proof.
  intros Hp Hnp Hkey Hq. unfold sale_step. rewrite Hp, Hq. cbn [rbind].
  rewrite Hnp. cbn [is_none orb].
  rewrite (dict_getitem_contains pd product _ Hkey). cbn [rbind negb].
  cbn [is_int_or_float lt_zero as_int negb orb].
  destruct b; cbn [Z.ltb Z.compare]; rewrite Hkey; reflexivity.
Qed.

Lemma sale_step_no_catalogue (sale : value) (total : float)
  (errors : list string) :
  plain_sale sale ->
  sale_step py_repr [] (total, errors) sale
  = Ok (total,
        (errors
         ++ [if is_none (field sale "Product") || is_none (field sale "Quantity")
             then ("Registro inválido en ventas: "
                   ++ str_text py_repr sale)%string
             else (str_text py_repr (field sale "Product")
                   ++ " no encontrado en el catálogo")%string])%list).
Proof.
  intros (d & -> & Hrepr & Hproduct). unfold sale_step.
  rewrite !(dict_get_dict d). cbn [rbind].
  destruct Hproduct as [-> | [s ->]]; cbn [is_none orb].
  - unfold invalid_record_message, py_str. now rewrite Hrepr.
  - destruct (is_none (field (VDict d) "Quantity")).
    + unfold invalid_record_message, py_str. now rewrite Hrepr.
    + reflexivity.
Qed.

Lemma sales_loop_no_catalogue (sales : list value) (total : float)
  (errors : list string) :
  Forall plain_sale sales ->
  sales_loop py_repr [] (total, errors) sales
  = Ok (total,
        (errors
         ++ map (fun sale =>
                   if is_none (field sale "Product")
                      || is_none (field sale "Quantity")
                   then ("Registro inválido en ventas: "
                         ++ str_text py_repr sale)%string
                   else (str_text py_repr (field sale "Product")
                         ++ " no encontrado en el catálogo")%string)
                sales)%list).
Proof.
  intros H. revert errors.
  induction H as [| sale sales Hsale _ IH]; intros errors;
    cbn [sales_loop map].
  - now rewrite app_nil_r.
  - rewrite (sale_step_no_catalogue sale total errors Hsale). cbn [rbind].
    rewrite IH, <- app_assoc. reflexivity.
Qed.

(** X10: with an empty catalogue, sale records that hold no int of more
    than 4300 digits and whose Product is a string, null or absent add
    nothing to the total and give one error each, in order: that of an
    invalid record when the Product or the Quantity is missing, else that
    of a product not found. *)
Theorem empty_catalogue_all_errors (sales : list value) :
  Forall plain_sale sales ->
  compute_total_sales py_repr [] sales
  = Ok (0%float,
        map (fun sale =>
               if is_none (field sale "Product")
                  || is_none (field sale "Quantity")
               then ("Registro inválido en ventas: "
                     ++ str_text py_repr sale)%string
               else (str_text py_repr (field sale "Product")
                     ++ " no encontrado en el catálogo")%string)
            sales).
Proof.
  intros H. unfold compute_total_sales. cbn [build_price_dict rbind].
  exact (sales_loop_no_catalogue sales 0%float [] H).
Qed.

Lemma sales_loop_filters (pd : pydict) (sales : list value) :
  (exists x, forall state, sales_loop py_repr pd state sales = Raise x)
  \/ exists amounts added,
       forall total errors,
         sales_loop py_repr pd (total, errors) sales
         = Ok (fold_left PrimFloat.add amounts total, (errors ++ added)%list)
         /\ sales_loop py_repr pd (total, errors)
              (filter (valid_record pd) sales)
            = Ok (fold_left PrimFloat.add amounts total, errors)
         /\ sales_loop py_repr pd (total, errors)
              (filter (invalid_record pd) sales)
            = Ok (total, (errors ++ added)%list).
Proof.
  induction sales as [| sale sales IH]; cbn [sales_loop filter].
  - right. exists [], []. intros total errors. cbn [fold_left].
    rewrite app_nil_r. repeat split.
  - unfold valid_record at 1.
    destruct (sale_step_shape pd sale)
      as [[x Hx] | [[Hinv Hstep] | [Hinv (a & Ha & Hstep)]]].
    + left. exists x. intros state. now rewrite Hx.
    + rewrite Hinv. cbn [negb sales_loop].
      destruct IH as [[x Hx] | (amounts & added & Hloop)].
      * left. exists x. intros [total errors]. rewrite Hstep. cbn [rbind].
        apply Hx.
      * right. exists amounts, (record_error py_repr pd sale :: added).
        intros total errors. rewrite Hstep. cbn [rbind].
        destruct (Hloop total (errors ++ [record_error py_repr pd sale])%list)
          as (-> & _ & ->).
        destruct (Hloop total errors) as (_ & -> & _).
        rewrite <- app_assoc. repeat split.
    + rewrite Hinv. cbn [negb sales_loop].
      destruct IH as [[x Hx] | (amounts & added & Hloop)].
      * left. exists x. intros [total errors]. rewrite Hstep. cbn [rbind].
        apply Hx.
      * right. exists (a :: amounts), added.
        intros total errors. rewrite Hstep. cbn [rbind fold_left].
        destruct (Hloop (total + a)%float errors) as (-> & -> & _).
        destruct (Hloop total errors) as (_ & _ & ->).
        repeat split.
Qed.

(** X13: when the aggregator returns, the total is that of the valid
    records alone and the errors are those of the invalid records alone:
    on the valid records it returns the same total and no errors, on the
    invalid ones 0.0 and the same errors. *)
Theorem valid_and_invalid_records_apart (cat sales : list value)
  (total : float) (errors : list string) :
  compute_total_sales py_repr cat sales = Ok (total, errors) ->
  exists pd,
    build_price_dict [] cat = Ok pd
    /\ compute_total_sales py_repr cat (filter (valid_record pd) sales)
       = Ok (total, [])
    /\ compute_total_sales py_repr cat (filter (invalid_record pd) sales)
       = Ok (0%float, errors).
Proof.
  unfold compute_total_sales. intros H.
  apply rbind_ok in H as (pd & Hpd & Hloop).
  exists pd. split; [exact Hpd |]. rewrite Hpd. cbn [rbind].
  destruct (sales_loop_filters pd sales) as [[x Hx] | (amounts & added & H)].
  - rewrite Hx in Hloop. discriminate Hloop.
  - destruct (H 0%float []) as (Hall & -> & ->).
    rewrite Hall in Hloop. injection Hloop as <- <-. split; reflexivity.
Qed.

End AggregatorFurther.

(** ** The program *)

Section MainFurther.

Variable py_repr : value -> string.

Lemma load_json_file_keeps_results (w : world) (path : string) (c : console) :
  results_file (fst (load_json_file w path c)) = results_file c.
Proof.
  unfold load_json_file.
  destruct (read_json w path) as [v | e]; [destruct v | destruct e];
    reflexivity.
Qed.

(** The rest of [main] once the aggregator has returned: the report is
    printed; the results file is written when it opens, and is as it was
    when it does not. *)
Lemma report_runs (w : world) (message : string) (errors : list string)
  (c : console) :
  (print message ;;;
   match errors with
   | [] => io_ret tt
   | _ =>
       print "Errores encontrados:" ;;;
       io_for errors (fun error => print (" - " ++ error))
   end ;;;
   open_results_file w ;;;
   write message ;;;
   match errors with
   | [] => io_ret tt
   | _ =>
       write ("Errores encontrados:" ++ nl) ;;;
       io_for errors (fun error => write (" - " ++ error ++ nl))
   end)%io c
  = match open_results w with
    | Ok _ =>
        (Console ((stdout c ++ message ++ nl) ++ error_lines errors)
           (Some (message ++ error_lines errors)%string),
         Ok tt)
    | Raise x =>
        (Console ((stdout c ++ message ++ nl) ++ error_lines errors)
           (results_file c),
         Raise x)
    end.
Proof.
  unfold io_bind at 1. unfold print at 1.
  unfold io_bind at 1. rewrite print_error_lines.
  unfold io_bind at 1. unfold open_results_file at 1.
  destruct (open_results w) as [[] | x]; [| reflexivity].
  unfold io_bind at 1. unfold write at 1.
  erewrite write_error_lines by reflexivity. reflexivity.
Qed.

(** X11: an exception of the aggregator is not caught by [main]: with both
    files loaded and some sales, the run prints nothing, leaves the results
    file as it was, and ends with that exception and exit status 1. *)
Theorem aggregator_exception_ends_run (w : world) (c : console)
  (cat sales : list value) (e : exn) :
  List.length (argv w) = 3%nat ->
  read_json w (nth 1 (argv w) "") = Ok (VList cat) ->
  read_json w (nth 2 (argv w) "") = Ok (VList sales) ->
  sales <> [] ->
  compute_total_sales py_repr cat sales = Raise e ->
  main py_repr w c = (c, Raise e)
  /\ exit_status (snd (main py_repr w c)) = 1.
Proof.
  intros Hargv Hcat Hsales Hne Hraise.
  assert (Hmain : main py_repr w c = (c, Raise e)).
  { unfold main. rewrite Hargv. cbn [Nat.eqb negb].
    unfold io_bind at 1. rewrite (load_json_file_list w _ cat c Hcat).
    unfold io_bind at 1. rewrite (load_json_file_list w _ sales c Hsales).
    destruct sales as [| sale sales]; [contradiction |].
    unfold io_bind at 1. unfold io_lift at 1. now rewrite Hraise. }
  split; [exact Hmain |]. rewrite Hmain. cbn [snd].
  apply compute_total_sales_exn in Hraise.
  destruct e; try discriminate Hraise; reflexivity.
Qed.

(** X12: the results file is written only by a run that goes to its end:
    when [main] ends with [sys.exit] or with an exception of a loader, of
    the aggregator or of opening the results file, the file is as it
    was. *)
Theorem failed_run_keeps_results (w : world) (c : console) (e : exn) :
  snd (main py_repr w c) = Raise e ->
  results_file (fst (main py_repr w c)) = results_file c.
Proof.
  destruct (main py_repr w c) as [c' r] eqn:Hmain. cbn [fst snd].
  intros ->. revert Hmain. unfold main.
  destruct (negb (Nat.eqb (List.length (argv w)) 3));
    [now intros [= <- _] |].
  unfold io_bind at 1.
  pose proof (load_json_file_keeps_results w (nth 1 (argv w) "") c) as H1.
  destruct (load_json_file w (nth 1 (argv w) "") c) as [c1 [rc | x]];
    cbn [fst] in H1; [| now intros [= <- _]].
  unfold io_bind at 1.
  pose proof (load_json_file_keeps_results w (nth 2 (argv w) "") c1) as H2.
  destruct (load_json_file w (nth 2 (argv w) "") c1) as [c2 [rs | x]];
    cbn [fst] in H2; [| intros [= <- _]; congruence].
  destruct rc as [cat |]; [destruct rs as [[| sale sales] |] |];
    try (intros [= <- _]; cbn; congruence).
  unfold io_bind at 1. unfold io_lift at 1.
  destruct (compute_total_sales py_repr cat (sale :: sales))
    as [[total errors] | x]; [| intros [= <- _]; congruence].
  rewrite report_runs.
  destruct (open_results w) as [[] | x]; [discriminate |].
  intros [= <- _]. cbn. congruence.
Qed.

End MainFurther.

(** ** Further examples *)

(** A catalogue file that does not exist. *)
Lemma load_json_file_returns_witness :
  results_file
    (Console ("Error: El archivo precios.json no se encontró." ++ nl) None)
  = results_file console0
  /\ exists line,
       load_message "precios.json" line
       /\ names_path "precios.json" line
       /\ stdout
            (Console ("Error: El archivo precios.json no se encontró." ++ nl)
               None)
          = (stdout console0 ++ line ++ nl)%string.
Proof.
  exact (load_json_file_returns missing_world "precios.json" console0
           (Console ("Error: El archivo precios.json no se encontró." ++ nl)
              None)
           None eq_refl).
Defined.

(** A file that does not exist and a file that is not JSON. *)
Lemma load_json_file_tells_failures_witness :
  stdout (fst (load_json_file missing_world "precios.json" console0))
  <> stdout (fst (load_json_file csv_world "precios.json" console0)).
Proof.
  apply (load_json_file_tells_failures missing_world csv_world "precios.json"
           console0 NotFound BadJson eq_refl eq_refl).
  discriminate.
Defined.

(** A header, a good row, a row whose quantity is no integer, a row of three
    fields, a good row, and then an I/O error. *)
Lemma load_csv_file_returns_witness :
  [csv_sale "Apple" 3; csv_sale "Plum" 7]
  = csv_records int_simple (read_csv failing_csv_world "ventas.csv")
  /\ results_file
       (fst (load_csv_file repr_simple int_simple failing_csv_world
               "ventas.csv" console0))
     = results_file console0.
Proof.
  exact (load_csv_file_returns repr_simple int_simple failing_csv_world
           "ventas.csv" console0 [csv_sale "Apple" 3; csv_sale "Plum" 7]
           eq_refl).
Defined.

(** An empty CSV file. *)
Lemma load_csv_file_raises_witness :
  snd (load_csv_file repr_simple int_simple empty_csv_world "ventas.csv"
         console0)
  = Raise StopIteration.
Proof.
  apply (proj2 (load_csv_file_raises repr_simple int_simple empty_csv_world
                  "ventas.csv" console0 StopIteration)).
  right. split; reflexivity.
Defined.

(** Two lists of two sales, each with one error. *)
Lemma compute_total_sales_app_witness :
  compute_total_sales repr_simple apple_catalogue
    ([sale_of "Apple" (VInt 3); sale_of "Banana" (VInt 1)]
     ++ [sale_of "Apple" (VInt (-1)); sale_of "Apple" (VInt 2)])
  = Ok (10%float,
        ["Banana no encontrado en el catálogo";
         "Cantidad -1 inválido para Apple"]).
Proof.
  destruct (compute_total_sales_app repr_simple apple_catalogue
              [sale_of "Apple" (VInt 3); sale_of "Banana" (VInt 1)]
              [sale_of "Apple" (VInt (-1)); sale_of "Apple" (VInt 2)]
              6%float 4%float
              ["Banana no encontrado en el catálogo"]
              ["Cantidad -1 inválido para Apple"] eq_refl eq_refl)
    as (pd & amounts & Hpd & Hamounts & _ & ->).
  injection Hpd as <-.
  inversion Hamounts as [| ? a ? amounts' Ha Hrest]; subst; clear Hamounts.
  inversion Hrest; subst; clear Hrest.
  injection Ha as <-. reflexivity.
Defined.

(** One valid sale, no errors. *)
Lemma no_errors_all_valid_witness :
  exists pd,
    build_price_dict [] apple_catalogue = Ok pd
    /\ (List.length (@nil string)
        <= List.length [sale_of "Apple" (VInt 3)])%nat
    /\ (@nil string = []
        <-> Forall (fun sale => invalid_record pd sale = false)
                   [sale_of "Apple" (VInt 3)]).
Proof.
  exact (no_errors_all_valid repr_simple apple_catalogue
           [sale_of "Apple" (VInt 3)] 6%float [] eq_refl).
Defined.

(** Pears are in the catalogue of fruit. *)
Lemma price_mapping_keys_witness :
  dict_contains fruit_prices (VStr "Pear") = Ok true <->
  exists h item title,
    hash_key (VStr "Pear") = Ok h /\ In item fruit_catalogue
    /\ subscript item "title" = Ok title /\ hash_key title = Ok h.
Proof.
  exact (price_mapping_keys fruit_catalogue fruit_prices (VStr "Pear")
           eq_refl).
Defined.

(** A number where a sale record should be, between two sales. *)
Lemma bad_record_stops_aggregator_witness :
  compute_total_sales repr_simple apple_catalogue
    ([sale_of "Apple" (VInt 3); sale_of "Banana" (VInt 1)]
     ++ VInt 7 :: [sale_of "Apple" (VInt 1)])
  = Raise AttributeError.
Proof.
  exact (proj2 (bad_record_stops_aggregator repr_simple apple_catalogue
                  [sale_of "Apple" (VInt 3); sale_of "Banana" (VInt 1)]
                  [sale_of "Apple" (VInt 1)] (VInt 7) eq_refl)
           (6%float, ["Banana no encontrado en el catálogo"]) eq_refl).
Defined.

(** A quantity of [true]. *)
Lemma boolean_quantity_counts_witness :
  sale_step repr_simple apple_prices (0%float, [])
    (sale_of "Apple" (VBool true))
  = Ok (2%float, []).
Proof.
  exact (boolean_quantity_counts repr_simple apple_prices
           (sale_of "Apple" (VBool true)) (VStr "Apple") true 2%float
           0%float [] eq_refl eq_refl eq_refl eq_refl).
Defined.

(** No catalogue: a sale of apples and a record without a product. *)
Lemma empty_catalogue_all_errors_witness :
  compute_total_sales repr_simple []
    [sale_of "Apple" (VInt 3); VDict [("Quantity", VInt 1)]]
  = Ok (0%float,
        ["Apple no encontrado en el catálogo";
         "Registro inválido en ventas: {'Quantity': 1}"]).
Proof.
  apply (empty_catalogue_all_errors repr_simple
           [sale_of "Apple" (VInt 3); VDict [("Quantity", VInt 1)]]).
  repeat constructor.
  - eexists. split; [reflexivity |]. split; [reflexivity |].
    right. now exists "Apple"%string.
  - eexists. split; [reflexivity |]. split; [reflexivity |]. now left.
Defined.

(** A catalogue entry without a title. *)
Lemma aggregator_exception_ends_run_witness :
  main repr_simple
    (world_of (VList [VDict [("price", VFloat 3)]])
       (VList [sale_of "Apple" (VInt 3)]))
    console0
  = (console0, Raise (KeyError (VStr "title")))
  /\ exit_status
       (snd (main repr_simple
               (world_of (VList [VDict [("price", VFloat 3)]])
                  (VList [sale_of "Apple" (VInt 3)]))
               console0))
     = 1.
Proof.
  refine (aggregator_exception_ends_run repr_simple
            (world_of (VList [VDict [("price", VFloat 3)]])
               (VList [sale_of "Apple" (VInt 3)]))
            console0 [VDict [("price", VFloat 3)]]
            [sale_of "Apple" (VInt 3)] (KeyError (VStr "title"))
            eq_refl eq_refl eq_refl _ eq_refl).
  discriminate.
Defined.

(** Neither file exists. *)
Lemma failed_run_keeps_results_witness :
  results_file (fst (main repr_simple missing_world console0))
  = results_file console0.
Proof.
  exact (failed_run_keeps_results repr_simple missing_world console0
           (SystemExit 1) eq_refl).
Defined.

(** Three sales and three errors, taken apart. *)
Lemma valid_and_invalid_records_apart_witness :
  exists pd,
    build_price_dict [] apple_catalogue = Ok pd
    /\ compute_total_sales repr_simple apple_catalogue
         (filter (valid_record pd)
            [sale_of "Apple" (VInt 3); sale_of "Banana" (VInt 1);
             sale_of "Apple" (VInt (-1)); sale_of "Apple" (VInt 2)])
       = Ok (10%float, [])
    /\ compute_total_sales repr_simple apple_catalogue
         (filter (invalid_record pd)
            [sale_of "Apple" (VInt 3); sale_of "Banana" (VInt 1);
             sale_of "Apple" (VInt (-1)); sale_of "Apple" (VInt 2)])
       = Ok (0%float,
             ["Banana no encontrado en el catálogo";
              "Cantidad -1 inválido para Apple"]).
Proof.
  exact (valid_and_invalid_records_apart repr_simple apple_catalogue
           [sale_of "Apple" (VInt 3); sale_of "Banana" (VInt 1);
            sale_of "Apple" (VInt (-1)); sale_of "Apple" (VInt 2)]
           10%float
           ["Banana no encontrado en el catálogo";
            "Cantidad -1 inválido para Apple"] eq_refl).
Defined.
